(** * Access-control bridge of the HealthLake / Cognito stack

    A shallow embedding of the two Lambda functions that carry decision
    logic, and of the stack that deploys them:

    - the API Gateway authorizer ([Authorizer], source file part_000),
    - the SMART-on-FHIR identity-provider Lambda ([Bridge], part_001), and
    - the CDK stacks and the deployment script ([Cdk], part_002 and
      bin/healthlake-cdk.ts).

    JavaScript values are modelled as the code uses them: a field that may
    be [undefined] is an [option string], strings are [string], whole-number
    timestamps are [Z].  Effects (console output and calls to Cognito or the
    JWKS endpoint) are recorded in a trace that is threaded through every
    function, and exceptions are explicit.  Library functions that are not
    part of the repository ([URL], [URLSearchParams], [jsonwebtoken],
    the AWS SDK) are fields of a host record; a sample host is defined for
    the closed examples. *)

From Stdlib Require Import String Ascii List ZArith Bool Lia.
Import ListNotations.
Open Scope string_scope.

(** ** JavaScript strings and truthiness *)

(** [String(x)] for a value that is a string or [undefined]; this is what a
    template literal and a property key do with it. *)
Definition to_str (x : option string) : string :=
  match x with
  | Some s => s
  | None => "undefined"
  end.

(** Truthiness of a value that is a string or [undefined]. *)
Definition truthy (x : option string) : bool :=
  match x with
  | Some EmptyString => false
  | Some _ => true
  | None => false
  end.

(** [a || b] on such values. *)
Definition or_else (a b : option string) : option string :=
  if truthy a then a else b.

(** [x === 'lit'] where [x] may be [undefined]. *)
Definition strict_eq (x : option string) (lit : string) : bool :=
  match x with
  | Some s => String.eqb s lit
  | None => false
  end.

(** [hay.includes(needle)]. *)
Fixpoint includes (needle hay : string) : bool :=
  prefix needle hay ||
  match hay with
  | EmptyString => false
  | String _ rest => includes needle rest
  end.

(** [s.split(c)] for a one-character separator: never the empty array. *)
Fixpoint split (c : ascii) (s : string) : list string :=
  match s with
  | EmptyString => [EmptyString]
  | String a rest =>
      if Ascii.eqb a c then EmptyString :: split c rest
      else match split c rest with
           | piece :: pieces => String a piece :: pieces
           | [] => [String a EmptyString]
           end
  end.

(** [arr.pop()] as used for its value: the last element, [undefined] on the
    empty array. *)
Fixpoint pop (l : list string) : option string :=
  match l with
  | [] => None
  | [x] => Some x
  | _ :: rest => pop rest
  end.

(** [arr[i]]. *)
Definition at_index (l : list string) (i : nat) : option string := nth_error l i.

(** [arr.join(sep)]. *)
Fixpoint join (sep : string) (l : list string) : string :=
  match l with
  | [] => EmptyString
  | [x] => x
  | x :: rest => x ++ sep ++ join sep rest
  end.

Fixpoint drop (n : nat) (s : string) : string :=
  match n, s with
  | O, _ => s
  | S n', String _ rest => drop n' rest
  | S _, EmptyString => EmptyString
  end.

(** [s.replace(pat, rep)] with a string pattern: the first occurrence only. *)
Fixpoint replace (pat rep s : string) : string :=
  if prefix pat s then rep ++ drop (String.length pat) s
  else match s with
       | EmptyString => EmptyString
       | String a rest => String a (replace pat rep rest)
       end.

(** [arr.includes(x)] on an array of strings. *)
Definition array_includes (x : string) (l : list string) : bool :=
  existsb (String.eqb x) l.

(** ** Object literals and the prototype chain

    [obj[key]] on an object literal finds an own property, or else a member
    inherited from [Object.prototype], or else [undefined]. *)
Definition Object_prototype_names : list string :=
  [ "constructor"; "__defineGetter__"; "__defineSetter__"; "hasOwnProperty";
    "__lookupGetter__"; "__lookupSetter__"; "isPrototypeOf";
    "propertyIsEnumerable"; "toString"; "valueOf"; "__proto__";
    "toLocaleString" ].

Inductive Lookup (A : Type) : Type :=
| Own (a : A)
| Inherited
| Undefined.
Arguments Own {A} a.
Arguments Inherited {A}.
Arguments Undefined {A}.

Fixpoint own_get {A : Type} (obj : list (string * A)) (key : string) : option A :=
  match obj with
  | [] => None
  | (k, v) :: rest => if String.eqb k key then Some v else own_get rest key
  end.

Definition object_get {A : Type} (obj : list (string * A)) (key : string) : Lookup A :=
  match own_get obj key with
  | Some v => Own v
  | None => if array_includes key Object_prototype_names then Inherited else Undefined
  end.

(** ** Effects: a trace of observable events and explicit exceptions *)

Inductive JSError : Type :=
| TypeError (message : string)
| ErrorObject (message : string)
| Rejection (reason : string)
| ServiceError (code : string).

(** [err.message]. *)
Definition message_of (e : JSError) : option string :=
  match e with
  | TypeError m => Some m
  | ErrorObject m => Some m
  | Rejection _ => None
  | ServiceError c => Some c
  end.

Inductive Event : Type :=
| ConsoleLog (label : string)
| ConsoleWarn (label : string)
| ConsoleError (label : string)
| CognitoGetUser (accessToken : string)
| CognitoAdminListGroupsForUser (username : option string)
| JwksGetSigningKey (kid : option string).

Definition Trace : Type := list Event.

Definition Exc (A : Type) : Type := (JSError + A)%type.

(** A computation starts from the trace so far and yields the trace after
    it together with a value or a thrown exception. *)
Definition M (A : Type) : Type := Trace -> Trace * Exc A.

Definition ret {A : Type} (a : A) : M A := fun tr => (tr, inr a).
Definition throw {A : Type} (e : JSError) : M A := fun tr => (tr, inl e).
Definition lift {A : Type} (x : Exc A) : M A := fun tr => (tr, x).
Definition emit (e : Event) : M unit := fun tr => ((tr ++ [e])%list, inr tt).

Definition bind {A B : Type} (m : M A) (k : A -> M B) : M B :=
  fun tr =>
    match m tr with
    | (tr', inl e) => (tr', inl e)
    | (tr', inr a) => k a tr'
    end.

(** [try { m } catch (e) { handle e }]. *)
Definition try_catch {A : Type} (m : M A) (handle : JSError -> M A) : M A :=
  fun tr =>
    match m tr with
    | (tr', inl e) => handle e tr'
    | (tr', inr a) => (tr', inr a)
    end.

Declare Scope js_scope.
Delimit Scope js_scope with js.
Notation "x <- m ;; k" := (bind m (fun x => k))
  (at level 61, m at next level, right associativity) : js_scope.
Notation "m ;; k" := (bind m (fun _ => k))
  (at level 61, right associativity) : js_scope.

Definition console_log (label : string) : M unit := emit (ConsoleLog label).
Definition console_warn (label : string) : M unit := emit (ConsoleWarn label).
Definition console_error (label : string) : M unit := emit (ConsoleError label).

(** The value a run produced, and the events it added. *)
Definition outcome {A : Type} (m : M A) (tr : Trace) : Exc A := snd (m tr).
Definition events {A : Type} (m : M A) : list Event := fst (m []).

(** Exception-only bind, for code without console output. *)
Definition ebind {A B : Type} (x : Exc A) (k : A -> Exc B) : Exc B :=
  match x with
  | inl e => inl e
  | inr a => k a
  end.

(** ** Role policies (the same literal and the same [reduce] appear in both
    Lambda functions: part_000 lines 54-63, part_001 lines 268-277) *)

Definition policies (userId : option string) : list (string * list string) :=
  [ ("Administrators", ["*"]);
    ("Practitioners",
     ["Patient.read"; "Patient.write"; "Observation.read"; "Observation.write"]);
    ("Patients",
     ["Patient.read?patient=" ++ to_str userId;
      "Observation.read?subject=" ++ to_str userId]) ].

(** One step of the [reduce]: [[...acc, ...(policies[group] || [])]].  A group
    name that resolves to an inherited member of [Object.prototype] yields a
    function (or the prototype object itself), which is truthy and not
    iterable, so the spread throws. *)
Definition allowedActions_step (userId : option string)
    (acc : Exc (list string)) (group : string) : Exc (list string) :=
  ebind acc (fun acc =>
    match object_get (policies userId) group with
    | Own actions => inr (acc ++ actions)%list
    | Inherited => inl (TypeError "(policies[group] || []) is not iterable")
    | Undefined => inr (acc ++ [])%list
    end).

Definition allowedActions (userId : option string) (userGroups : list string)
    : Exc (list string) :=
  fold_left (allowedActions_step userId) userGroups (inr []).

(** * The identity-provider Lambda (part_001) *)

Module Bridge.

Record URL : Type := { pathname : string; search : string }.

(** What reading a member of one of the host's built-in objects gives, as far
    as the code can tell. *)
Inductive Member : Type := Falsy | Truthy | AccessThrows.

(** The JavaScript platform.  [new_URL s] is [None] when [new URL(s)] throws;
    [URLSearchParams_get init name] is [new URLSearchParams(init).get(name)],
    [None] standing for [null]; [builtin_member o m] is [o[m]] for a built-in
    [o] reached through [Object.prototype] (named by the key that reaches
    it); [Date_now] is [Date.now()], in milliseconds. *)
Record Host : Type := {
  new_URL : string -> option URL;
  URLSearchParams_get : string -> string -> option string;
  builtin_member : string -> string -> Member;
  Date_now : Z
}.

(** The Cognito user pool, through the AWS SDK.  [getUser token] resolves
    with a user whose [Username] is the string given, or rejects;
    [adminListGroupsForUser name] resolves with the group names. *)
Record Cognito : Type := {
  getUser : string -> Exc string;
  adminListGroupsForUser : option string -> Exc (list string)
}.

(** [process.env]. *)
Record ProcessEnv : Type := {
  HEALTHLAKE_ROLE_ARN : option string;
  OAUTH2_SERVER_URL : option string
}.

Record LambdaEvent : Type := {
  operationName : option string;
  datastoreEndpoint : option string;
  bearerToken : option string
}.

(** The values the identifier [userInfo] can denote: an object with an
    optional [Username] ([{}] when it is absent), or the function
    [os.userInfo] that line 2 imports at module level. *)
Inductive UserInfo : Type :=
| UserObject (name : option string)
| os_userInfo.

(** [userInfo.Username]. *)
Definition Username (userInfo : UserInfo) : option string :=
  match userInfo with
  | UserObject name => name
  | os_userInfo => None
  end.

Record AuthPayload : Type := {
  iss : string;
  aud : string;
  iat : Z;
  nbf : Z;
  exp : Z;
  isAuthorized : bool;
  scope : string;
  sub : string
}.

Inductive Response : Type :=
| ErrorResponse (statusCode : Z) (error : string) (error_description : string)
| Forwarded (authPayload : AuthPayload) (iamRoleARN : string).

(** [forwardRequestToHealthLake], lines 151-222. *)
Definition forwardRequestToHealthLake (h : Host) (env : ProcessEnv)
    (event : LambdaEvent) (userInfo : UserInfo) : M Response :=
  try_catch
    (if negb (truthy (datastoreEndpoint event)) || negb (truthy (bearerToken event))
     then ret (ErrorResponse 400 "invalid_request"
                 "Missing datastoreEndpoint or bearerToken")
     else
       let currentTimeInSeconds := (Date_now h / 1000)%Z in
       let expirationTimeInSeconds := (currentTimeInSeconds + 3600)%Z in
       let scope := "system/*.*" in
       if negb (truthy (HEALTHLAKE_ROLE_ARN env))
       then (console_error "HEALTHLAKE_ROLE_ARN environment variable is not set";;
             ret (ErrorResponse 500 "server_error"
                    "HealthLake IAM role configuration is missing"))%js
       else (console_log "Using HealthLake execution role:";;
             let response :=
               Forwarded
                 {| iss := to_str (or_else (OAUTH2_SERVER_URL env)
                             (Some "https://main-oauth2-server-link.com/oauth2/token"));
                    aud := to_str (datastoreEndpoint event);
                    iat := currentTimeInSeconds;
                    nbf := currentTimeInSeconds;
                    exp := expirationTimeInSeconds;
                    isAuthorized := true;
                    scope := scope;
                    sub := to_str (or_else (Username userInfo) (Some "anonymous")) |}
                 (to_str (HEALTHLAKE_ROLE_ARN env)) in
             console_log "Forwarding request to HealthLake:";;
             ret response)%js)
    (fun _ =>
       (console_error "Error handling request to HealthLake:";;
        ret (ErrorResponse 500 "server_error"
               "An error occurred while processing the request"))%js).

(** The operation handlers, lines 95-146.  [handleSearchAll] declares one
    parameter only, so the [userInfo] in its body is the module-level import
    from ['os'], not the user the handler resolved. *)
Definition handleSearchAll (h : Host) (env : ProcessEnv) (event : LambdaEvent)
    : M Response :=
  forwardRequestToHealthLake h env event os_userInfo.

Definition handleSearchWithGet (h : Host) (env : ProcessEnv) (event : LambdaEvent)
    (userInfo : UserInfo) : M Response :=
  forwardRequestToHealthLake h env event userInfo.

Definition handleCreateResource (h : Host) (env : ProcessEnv) (event : LambdaEvent)
    (userInfo : UserInfo) : M Response :=
  forwardRequestToHealthLake h env event userInfo.

Definition handleDeleteResource (h : Host) (env : ProcessEnv) (event : LambdaEvent)
    (userInfo : UserInfo) : M Response :=
  forwardRequestToHealthLake h env event userInfo.

Definition handleReadResource (h : Host) (env : ProcessEnv) (event : LambdaEvent)
    (userInfo : UserInfo) : M Response :=
  forwardRequestToHealthLake h env event userInfo.

Definition handleSearchWithPost (h : Host) (env : ProcessEnv) (event : LambdaEvent)
    (userInfo : UserInfo) : M Response :=
  forwardRequestToHealthLake h env event userInfo.

Definition handleStartFHIRExportJobWithPost (h : Host) (env : ProcessEnv)
    (event : LambdaEvent) (userInfo : UserInfo) : M Response :=
  forwardRequestToHealthLake h env event userInfo.

Definition handleUpdateResource (h : Host) (env : ProcessEnv) (event : LambdaEvent)
    (userInfo : UserInfo) : M Response :=
  forwardRequestToHealthLake h env event userInfo.

(** [getUserInfo], lines 227-247. *)
Definition getUserInfo (c : Cognito) (event : LambdaEvent) : M UserInfo :=
  try_catch
    (if negb (truthy (bearerToken event))
     then (console_error "Missing bearerToken for user info";;
           ret (UserObject None))%js
     else (emit (CognitoGetUser (to_str (bearerToken event)));;
           name <- lift (getUser c (to_str (bearerToken event)));;
           console_log "User info:";;
           ret (UserObject (Some name)))%js)
    (fun _ =>
       (console_error "Error getting user info:";;
        ret (UserObject None))%js).

(** [new URL(x)] where [x] may be [undefined]. *)
Definition URL_of (h : Host) (x : option string) : Exc URL :=
  match new_URL h (to_str x) with
  | Some url => inr url
  | None => inl (TypeError "Invalid URL")
  end.

(** [new URLSearchParams(init).get(name)] and [.has(name)]; an [undefined]
    init gives the empty parameter list. *)
Definition params_get (h : Host) (init : option string) (name : string)
    : option string :=
  match init with
  | Some q => URLSearchParams_get h q name
  | None => None
  end.

Definition params_has (h : Host) (init : option string) (name : string) : bool :=
  match params_get h init name with
  | Some _ => true
  | None => false
  end.

(** [queryParams.every(callback)], line 336.  [URLSearchParams] offers
    [append], [delete], [entries], [forEach], [get], [getAll], [has], [keys],
    [set], [sort], [toString] and [values]; it has no member [every], so the
    member read gives [undefined] and calling it throws. *)
Definition URLSearchParams_every (queryParams : option string)
    (callback : string -> string -> bool) : Exc bool :=
  inl (TypeError "queryParams.every is not a function").

(** [String(x)] for a string or [null], as [includes] coerces its argument. *)
Definition to_str_null (x : option string) : string :=
  match x with
  | Some s => s
  | None => "null"
  end.

Definition resourceOperationPermissionsMap
    : list (string * list (string * list string)) :=
  [ ("Patient",
     [ ("CreateResource", ["Patient.write"]);
       ("DeleteResource", ["Patient.write"]);
       ("ReadResource", ["Patient.read"]);
       ("SearchAll", ["Patient.read"]);
       ("SearchWithGet", ["Patient.read"]);
       ("SearchWithPost", ["Patient.read"]);
       ("UpdateResource", ["Patient.write"]);
       ("StartFHIRExportJobWithPost", ["Patient.write"]) ]);
    ("Observation",
     [ ("CreateResource", ["Observation.write"]);
       ("DeleteResource", ["Observation.write"]);
       ("ReadResource", ["Observation.read"]);
       ("SearchAll", ["Observation.read"]);
       ("SearchWithGet", ["Observation.read"]);
       ("SearchWithPost", ["Observation.read"]);
       ("UpdateResource", ["Observation.write"]);
       ("StartFHIRExportJobWithPost", ["Observation.write"]) ]) ].

(** The value of [requiredPermissions] on line 313: an array, or a truthy
    built-in that is not an array (and so has no [every]). *)
Inductive Required : Type :=
| RequiredArray (permissions : list string)
| RequiredNotArray.

(** [resourceOperationPermissionsMap[resourcePath][operationName] || []]. *)
Definition requiredPermissions (h : Host) (resourcePath operationName : option string)
    : Exc Required :=
  match object_get resourceOperationPermissionsMap (to_str resourcePath) with
  | Own operations =>
      match object_get operations (to_str operationName) with
      | Own permissions => inr (RequiredArray permissions)
      | Inherited => inr RequiredNotArray
      | Undefined => inr (RequiredArray [])
      end
  | Inherited =>
      match builtin_member h (to_str resourcePath) (to_str operationName) with
      | Falsy => inr (RequiredArray [])
      | Truthy => inr RequiredNotArray
      | AccessThrows => inl (TypeError "restricted property")
      end
  | Undefined => inl (TypeError "Cannot read properties of undefined")
  end.

(** The predicate and the filter of lines 319-323. *)
Definition action_matches (permission action : string) : bool :=
  if includes "?" action
  then strict_eq (at_index (split "?" action) 0) permission
  else String.eqb action permission.

Definition allowedActionsPermissionMatch (allowed : list string) (permission : string)
    : list string :=
  filter (action_matches permission) allowed.

(** The callback written on lines 336-338, with the parameter order
    [(value, key)] of the source. *)
Definition queryParamsMatch_callback (h : Host) (endpointQuery : option string)
    (value key : string) : bool :=
  params_has h endpointQuery key
  && negb (strict_eq (params_get h endpointQuery key) value).

(** [endpointPath.includes(queryParams.get('patient') || queryParams.get('subject'))],
    lines 343-344. *)
Definition endpointPathMatch (h : Host) (url : URL) (query : option string) : bool :=
  includes (to_str_null (or_else (params_get h query "patient")
                                 (params_get h query "subject")))
           (pathname url).

(** The [for] loop of lines 330-350 followed by [return true] on line 352. *)
Fixpoint scope_loop (h : Host) (event : LambdaEvent) (matched : list string)
    : Exc bool :=
  match matched with
  | [] => inr true
  | allowedAction :: rest =>
      if includes "?" allowedAction then
        let query := at_index (split "?" allowedAction) 1 in
        if strict_eq (operationName event) "SearchWithGet" then
          ebind (URL_of h (datastoreEndpoint event)) (fun url =>
          let endpointQuery := Some (search url) in
          ebind (URLSearchParams_every query
                   (queryParamsMatch_callback h endpointQuery))
                (fun queryParamsMatch =>
          if negb queryParamsMatch then inr false
          else scope_loop h event rest))
        else if strict_eq (operationName event) "UpdateResource"
                || strict_eq (operationName event) "DeleteResource"
                || strict_eq (operationName event) "ReadResource" then
          ebind (URL_of h (datastoreEndpoint event)) (fun url =>
          if negb (endpointPathMatch h url query) then inr false
          else scope_loop h event rest)
        else scope_loop h event rest
      else scope_loop h event rest
  end.

(** The callback given to [requiredPermissions.every], lines 317-353. *)
Definition permission_callback (h : Host) (event : LambdaEvent)
    (allowed : list string) (permission : string) : Exc bool :=
  let matched := allowedActionsPermissionMatch allowed permission in
  if Nat.eqb (List.length matched) 0 then inr false
  else scope_loop h event matched.

(** [arr.every(callback)] with a callback that may throw. *)
Fixpoint every (callback : string -> Exc bool) (l : list string) : Exc bool :=
  match l with
  | [] => inr true
  | x :: rest =>
      ebind (callback x) (fun ok => if ok then every callback rest else inr false)
  end.

Definition required_every (required : Required) (callback : string -> Exc bool)
    : Exc bool :=
  match required with
  | RequiredArray permissions => every callback permissions
  | RequiredNotArray => inl (TypeError "requiredPermissions.every is not a function")
  end.

(** [checkUserPermissions], lines 252-361. *)
Definition checkUserPermissions (h : Host) (c : Cognito) (event : LambdaEvent)
    (userInfo : UserInfo) : M bool :=
  try_catch
    (emit (CognitoAdminListGroupsForUser (Username userInfo));;
     userGroupsNames <- lift (adminListGroupsForUser c (Username userInfo));;
     console_log "User info:";;
     console_log "User groups:";;
     let userId := Username userInfo in
     allowed <- lift (allowedActions userId userGroupsNames);;
     console_log "Allowed actions for user:";;
     if array_includes "*" allowed then ret true
     else
       url <- lift (URL_of h (datastoreEndpoint event));;
       let resourcePath := pop (split "/" (pathname url)) in
       console_log "Resource path:";;
       required <- lift (requiredPermissions h resourcePath (operationName event));;
       console_log "Required permissions for operation:";;
       hasPermission <- lift (required_every required
                               (permission_callback h event allowed));;
       console_log "Permission check result:";;
       ret hasPermission)%js
    (fun _ =>
       (console_error "Error checking user permissions:";;
        ret false)%js).

Definition access_denied : Response :=
  ErrorResponse 403 "access_denied"
    "User does not have permission to perform this operation".

(** The operation switch of lines 33-62. *)
Definition dispatch (h : Host) (env : ProcessEnv) (event : LambdaEvent)
    (userInfo : UserInfo) (name : string) : M Response :=
  if String.eqb name "CreateResource" then handleCreateResource h env event userInfo
  else if String.eqb name "DeleteResource" then handleDeleteResource h env event userInfo
  else if String.eqb name "ReadResource" then handleReadResource h env event userInfo
  else if String.eqb name "SearchAll" then handleSearchAll h env event
  else if String.eqb name "SearchWithGet" then handleSearchWithGet h env event userInfo
  else if String.eqb name "SearchWithPost" then handleSearchWithPost h env event userInfo
  else if String.eqb name "StartFHIRExportJobWithPost"
       then handleStartFHIRExportJobWithPost h env event userInfo
  else if String.eqb name "UpdateResource" then handleUpdateResource h env event userInfo
  else (console_log "Unhandled operationName:";;
        ret (ErrorResponse 400 "unsupported_operation"
               ("Operation " ++ name ++ " is not supported")))%js.

(** [exports.handler], lines 9-90. *)
Definition handler (h : Host) (c : Cognito) (env : ProcessEnv) (event : LambdaEvent)
    : M Response :=
  (console_log "Event received:";;
   try_catch
     (userInfo <- getUserInfo c event;;
      hasPermission <- checkUserPermissions h c event userInfo;;
      if negb hasPermission then ret access_denied
      else if truthy (operationName event) then
        (console_log "Processing HealthLake operation:";;
         dispatch h env event userInfo (to_str (operationName event)))
      else
        (console_log "Unhandled request, returning default response";;
         ret (ErrorResponse 400 "invalid_request" "No valid operationName provided")))
     (fun _ =>
        console_error "Error processing request:";;
        ret (ErrorResponse 500 "server_error" "An internal server error occurred")))%js.

End Bridge.

(** * The API Gateway authorizer (part_000) *)

Module Authorizer.

Record AuthorizerEvent : Type := {
  authorizationToken : option string;
  methodArn : option string
}.

Record JwtHeader : Type := { kid : option string }.

(** The claims the code reads from a token payload. *)
Record Claims : Type := {
  sub : option string;
  email : option string;
  preferred_username : option string;
  cognito_groups : option (list string)
}.

(** The result of [jwt.decode(token, { complete: true })] when it is not
    [null]; a falsy [header] or [payload] is [None]. *)
Record Decoded : Type := {
  header : option JwtHeader;
  payload : option Claims
}.

(** The libraries [jsonwebtoken] and [jwks-rsa].  [client_getSigningKey kid]
    is the pair [(err, key)] the client hands to the callback, [key] already
    standing for [key.getPublicKey()]; [verify token key] is
    [jwt.verify(token, key, { algorithms: ['RS256'] })]: the payload, or the
    exception of a failed signature, algorithm or temporal check. *)
Record Jwt : Type := {
  decode : string -> Exc (option Decoded);
  client_getSigningKey : option string -> option JSError * option string;
  verify : string -> string -> Exc Claims
}.

Inductive PolicyEffect : Type := Allow | Deny.

Record PolicyStatement : Type := {
  Action : string;
  Effect : PolicyEffect;
  Resource : option string
}.

Record PolicyDocument : Type := {
  Version : string;
  Statement : list PolicyStatement
}.

Record Context : Type := {
  userId : option string;
  userName : option string;
  groups : string;
  scopes : string
}.

Record AuthResponse : Type := {
  principalId : option string;
  policyDocument : PolicyDocument;
  context : option Context
}.

(** [getSigningKey], lines 10-18. *)
Definition getSigningKey (j : Jwt) (kid : option string) : M string :=
  (emit (JwksGetSigningKey kid);;
   match client_getSigningKey j kid with
   | (Some err, _) => throw err
   | (None, Some key) => ret key
   | (None, None) => throw (Rejection "Key not found")
   end)%js.

(** The object the [catch] block returns, lines 96-106. *)
Definition deny_response (event : AuthorizerEvent) : AuthResponse :=
  {| principalId := Some "unauthorized";
     policyDocument :=
       {| Version := "2012-10-17";
          Statement := [ {| Action := "execute-api:Invoke";
                            Effect := Deny;
                            Resource := methodArn event |} ] |};
     context := None |}.

(** The object built on lines 71-88. *)
Definition allow_response (event : AuthorizerEvent) (userId userName : option string)
    (userGroups allowed : list string) : AuthResponse :=
  {| principalId := userName;
     policyDocument :=
       {| Version := "2012-10-17";
          Statement := [ {| Action := "execute-api:Invoke";
                            Effect := Allow;
                            Resource := methodArn event |} ] |};
     context := Some {| userId := userId;
                        userName := userName;
                        groups := join "," userGroups;
                        scopes := join "," allowed |} |}.

(** The [try] block of the handler, lines 22-91. *)
Definition handler_try (j : Jwt) (event : AuthorizerEvent) : M AuthResponse :=
  (console_log "Auth event:";;
   (if negb (truthy (authorizationToken event))
    then (console_error "Authorization token is missing";;
          throw (ErrorObject "Unauthorized"))
    else ret tt);;
   let token := replace "Bearer " EmptyString (to_str (authorizationToken event)) in
   decoded <- lift (decode j token);;
   head <- match decoded with
           | Some {| header := Some head; payload := Some _ |} => ret head
           | _ => (console_error "Invalid token format";;
                   throw (ErrorObject "Invalid token format"))
           end;;
   console_log "Decoded token header:";;
   signingKey <- getSigningKey j (kid head);;
   verifiedToken <- lift (verify j token signingKey);;
   console_log "Verified token payload:";;
   let userId := sub verifiedToken in
   let userName := or_else (or_else (email verifiedToken)
                                    (preferred_username verifiedToken))
                           (sub verifiedToken) in
   let userGroups := match cognito_groups verifiedToken with
                     | Some names => names
                     | None => []
                     end in
   console_log "User identified as:";;
   allowed <- lift (allowedActions userId userGroups);;
   (if Nat.eqb (List.length allowed) 0
    then console_warn "User has no permissions assigned"
    else ret tt);;
   let authResponse := allow_response event userId userName userGroups allowed in
   console_log "Auth response:";;
   ret authResponse)%js.

(** [exports.handler], lines 20-108. *)
Definition handler (j : Jwt) (event : AuthorizerEvent) : M AuthResponse :=
  try_catch (handler_try j event)
    (fun err => (console_error "Auth Error:";; ret (deny_response event))%js).

(** The effect of the single statement of a response. *)
Definition effect_of (r : AuthResponse) : option PolicyEffect :=
  match Statement (policyDocument r) with
  | [s] => Some (Effect s)
  | _ => None
  end.

End Authorizer.

(** * The deployment (bin/healthlake-cdk.ts and the stack file, part_002)

    Synthesis builds a tree of constructs.  An entry of the tree records what
    the source writes: for a declaration [new C(scope, id, props)], a factory
    call [C.fromX(scope, id, ...)] or a method that adds a named child
    ([addResource], [addMethod], [addPermission]), the id of the scope, the id
    of the child, the class and the scalar properties listed with it; for any
    other method called on a construct, the receiver and the method.  Nested
    option blocks (CORS, logging and integration responses, policy statements,
    the FHIR capability statement) are not recorded.  A value that the library
    resolves at deployment, such as [userPool.userPoolId], is the text
    [${HealthLakeUserPool.userPoolId}]. *)

Module Cdk.

Inductive Entry : Type :=
| Declared (scope id class : string) (props : list (string * string))
| Called (receiver method : string).

(** The construct library: what a constructor, factory or method call
    throws for reasons of its own, if anything. *)
Record Library : Type := {
  construct_fails : string -> string -> option JSError;
  call_fails : string -> string -> option JSError
}.

Definition Synth (A : Type) : Type := list Entry -> list Entry * Exc A.

Definition sret {A : Type} (a : A) : Synth A := fun tree => (tree, inr a).
Definition sthrow {A : Type} (e : JSError) : Synth A := fun tree => (tree, inl e).

Definition sbind {A B : Type} (m : Synth A) (k : A -> Synth B) : Synth B :=
  fun tree =>
    match m tree with
    | (tree', inl e) => (tree', inl e)
    | (tree', inr a) => k a tree'
    end.

Definition stry {A : Type} (m : Synth A) (handle : JSError -> Synth A) : Synth A :=
  fun tree =>
    match m tree with
    | (tree', inl e) => handle e tree'
    | (tree', inr a) => (tree', inr a)
    end.

Declare Scope cdk_scope.
Delimit Scope cdk_scope with cdk.
Notation "x <- m ;; k" := (sbind m (fun x => k))
  (at level 61, m at next level, right associativity) : cdk_scope.
Notation "m ;; k" := (sbind m (fun _ => k))
  (at level 61, right associativity) : cdk_scope.

Definition is_declared (scope id : string) (e : Entry) : bool :=
  match e with
  | Declared s i _ _ => String.eqb s scope && String.eqb i id
  | Called _ _ => false
  end.

(** A declaration: the construct tree refuses a second child of the same
    name in one scope; otherwise the library's constructor runs.  (What a
    constructor that throws has already added to the tree is not modelled;
    no result below reads the tree of a failed synthesis.) *)
Definition declare (lib : Library) (scope id class : string)
    (props : list (string * string)) : Synth unit :=
  fun tree =>
    if existsb (is_declared scope id) tree
    then (tree, inl (ErrorObject ("There is already a Construct with name '" ++ id
                                  ++ "' in " ++ scope)))
    else match construct_fails lib scope id with
         | Some e => (tree, inl e)
         | None => ((tree ++ [Declared scope id class props])%list, inr tt)
         end.

Definition call (lib : Library) (receiver method : string) : Synth unit :=
  fun tree =>
    match call_fails lib receiver method with
    | Some e => (tree, inl e)
    | None => ((tree ++ [Called receiver method])%list, inr tt)
    end.

(** A value resolved at deployment. *)
Definition attr (construct attribute : string) : string :=
  "${" ++ construct ++ "." ++ attribute ++ "}".

Definition region : string := "${AWS::Region}".

(** [s.endsWith(suffix)]. *)
Fixpoint endsWith (suffix s : string) : bool :=
  String.eqb suffix s ||
  match s with
  | EmptyString => false
  | String _ rest => endsWith suffix rest
  end.

(** [error instanceof Error]: everything thrown but a bare value. *)
Definition instanceof_Error (e : JSError) : bool :=
  match e with
  | Rejection _ => false
  | _ => true
  end.

(** [CognitoCertificateStack], part_002 lines 14-43. *)
Definition CognitoCertificateStack (lib : Library) (scope id : string)
    (authDomainName hostedZoneName hostedZoneId : string) : Synth unit :=
  (declare lib scope id "cdk.Stack" [("env.region", "us-east-1")];;
   declare lib id "HostedZone" "route53.HostedZone.fromHostedZoneAttributes"
     [("zoneName", hostedZoneName); ("hostedZoneId", hostedZoneId)];;
   declare lib id "CognitoCertificate" "acm.Certificate"
     [("domainName", authDomainName); ("validation", "fromDns(HostedZone)")];;
   declare lib id "CognitoCertificateArn" "cdk.CfnOutput"
     [("value", attr "CognitoCertificate" "certificateArn")])%cdk.

Record HealthlakeCdkStackProps : Type := {
  authDomainName : string;
  apiDomainName : string;
  hostedZoneName : string;
  hostedZoneId : string;
  cognitoCertificateArn : option string
}.

(** The environment of the two Lambda functions, lines 169-174 and 264-268. *)
Definition idp_environment : list (string * string) :=
  [ ("COGNITO_USER_POOL_ID", attr "HealthLakeUserPool" "userPoolId");
    ("COGNITO_CLIENT_ID", attr "HealthLakeUserPoolClient" "userPoolClientId");
    ("COGNITO_REGION", region);
    ("HEALTHLAKE_ROLE_ARN", attr "HealthLakeSMARTonFHIRRole" "roleArn") ].

Definition auth_environment : list (string * string) :=
  [ ("COGNITO_USER_POOL_ID", attr "HealthLakeUserPool" "userPoolId");
    ("COGNITO_CLIENT_ID", attr "HealthLakeUserPoolClient" "userPoolClientId");
    ("COGNITO_REGION", region) ].

Definition environment_props (environment : list (string * string))
    : list (string * string) :=
  map (fun kv => ("environment." ++ fst kv, snd kv)) environment.

(** The custom domain block, lines 108-143. *)
Definition custom_domain (lib : Library) (id : string) (props : HealthlakeCdkStackProps)
    : Synth unit :=
  if truthy (cognitoCertificateArn props) then
    if negb (endsWith ("." ++ hostedZoneName props) (authDomainName props)) then
      sthrow (ErrorObject ("Invalid authDomainName: " ++ authDomainName props
                           ++ ". It must be a subdomain of the hosted zone: "
                           ++ hostedZoneName props))
    else
      stry
        (declare lib id "UserPoolDomain" "cognito.UserPoolDomain"
           [("userPool", "HealthLakeUserPool");
            ("customDomain.domainName", authDomainName props);
            ("customDomain.certificate", "ImportedCognitoCertificate")];;
         declare lib id "CognitoDomainRecord" "route53.ARecord"
           [("zone", "HostedZone"); ("recordName", authDomainName props);
            ("target", "UserPoolDomainTarget(UserPoolDomain)")])%cdk
        (fun error =>
           if instanceof_Error error
           then sthrow (ErrorObject ("Failed to create custom domain for Cognito: "
                                     ++ to_str (message_of error)))
           else sret tt)
  else sret tt.

(** [HealthlakeCdkStack], part_002 lines 54-460. *)
Definition HealthlakeCdkStack (lib : Library) (scope id : string)
    (props : HealthlakeCdkStackProps) : Synth unit :=
  (declare lib scope id "cdk.Stack" [];;
   declare lib id "HostedZone" "route53.HostedZone.fromHostedZoneAttributes"
     [("zoneName", hostedZoneName props); ("hostedZoneId", hostedZoneId props)];;
   declare lib id "ApiCertificate" "acm.Certificate"
     [("domainName", apiDomainName props); ("validation", "fromDns(HostedZone)")];;
   (if truthy (cognitoCertificateArn props)
    then declare lib id "ImportedCognitoCertificate" "acm.Certificate.fromCertificateArn"
           [("certificateArn", to_str (cognitoCertificateArn props))]
    else sret tt);;
   declare lib id "HealthLakeUserPool" "cognito.UserPool"
     [("userPoolName", "HealthLakeUserPool"); ("selfSignUpEnabled", "true");
      ("signInAliases.email", "true"); ("autoVerify.email", "true");
      ("standardAttributes.email.required", "true");
      ("standardAttributes.email.mutable", "false")];;
   declare lib id "AdminGroup" "cognito.CfnUserPoolGroup"
     [("userPoolId", attr "HealthLakeUserPool" "userPoolId");
      ("groupName", "Administrators");
      ("description", "Administrators with full access")];;
   declare lib id "PractitionerGroup" "cognito.CfnUserPoolGroup"
     [("userPoolId", attr "HealthLakeUserPool" "userPoolId");
      ("groupName", "Practitioners");
      ("description", "Healthcare practitioners")];;
   declare lib id "PatientGroup" "cognito.CfnUserPoolGroup"
     [("userPoolId", attr "HealthLakeUserPool" "userPoolId");
      ("groupName", "Patients");
      ("description", "Patients with access to their own records")];;
   declare lib id "HealthLakeUserPoolClient" "cognito.UserPoolClient"
     [("userPool", "HealthLakeUserPool"); ("generateSecret", "false");
      ("authFlows.userPassword", "true")];;
   custom_domain lib id props;;
   declare lib id "HealthLakeSMARTonFHIRRole" "iam.Role"
     [("assumedBy", "healthlake.amazonaws.com");
      ("description",
       "Role that HealthLake SMART on FHIR can assume to perform operations");
      ("managedPolicies", "AmazonHealthLakeFullAccess")];;
   call lib "HealthLakeSMARTonFHIRRole" "addToPolicy";;
   declare lib id "SmartOnFhirIdpLambda" "lambda.Function"
     ([("runtime", "NODEJS_18_X"); ("handler", "index.handler");
       ("code", "lambda-idp"); ("timeout", "30s")]
      ++ environment_props idp_environment);;
   declare lib "SmartOnFhirIdpLambda" "AllowHealthLakeToInvokeLambda" "lambda.Permission"
     [("principal", "healthlake.amazonaws.com"); ("action", "lambda:InvokeFunction")];;
   declare lib id "SmartOnFhirLambdaArnDebug" "cdk.CfnOutput"
     [("value", attr "SmartOnFhirIdpLambda" "functionArn");
      ("description", "Debugging SMART on FHIR Lambda ARN")];;
   call lib "SmartOnFhirIdpLambda" "addToRolePolicy";;
   declare lib id "HealthLakeStore" "healthlake.CfnFHIRDatastore"
     [("datastoreTypeVersion", "R4"); ("datastoreName", "TestHealthLakeStore");
      ("identityProviderConfiguration.authorizationStrategy", "SMART_ON_FHIR_V1");
      ("identityProviderConfiguration.fineGrainedAuthorizationEnabled", "true");
      ("identityProviderConfiguration.idpLambdaArn",
       attr "SmartOnFhirIdpLambda" "functionArn")];;
   call lib "HealthLakeStore" "node.addDependency";;
   declare lib id "AuthLambda" "lambda.Function"
     ([("runtime", "NODEJS_18_X"); ("handler", "index.handler");
       ("code", "lambda-auth")]
      ++ environment_props auth_environment);;
   declare lib id "ApiAccessLogs" "logs.LogGroup"
     [("logGroupName", "/aws/apigateway/" ++ id ++ "/access-logs");
      ("retention", "ONE_WEEK")];;
   declare lib id "HealthLakeApi" "apigateway.RestApi"
     [("restApiName", "HealthLake Service");
      ("description", "API Gateway for AWS HealthLake");
      ("cloudWatchRole", "true")];;
   declare lib id "LambdaAuthorizer" "apigateway.TokenAuthorizer"
     [("handler", "AuthLambda");
      ("identitySource", "method.request.header.Authorization")];;
   declare lib id "HealthLakeAPIRole" "iam.Role"
     [("assumedBy", "apigateway.amazonaws.com");
      ("managedPolicies", "AmazonHealthLakeFullAccess")];;
   declare lib "HealthLakeApi.root" "healthlake" "apigateway.Resource" [];;
   declare lib "healthlake" "{proxy+}" "apigateway.Resource" [];;
   declare lib "{proxy+}" "ANY" "apigateway.Method"
     [("integration",
       "https://healthlake." ++ region ++ ".amazonaws.com/datastore/"
       ++ attr "HealthLakeStore" "attrDatastoreId" ++ "/r4/{proxy}");
      ("authorizer", "LambdaAuthorizer"); ("authorizationType", "CUSTOM")];;
   declare lib "healthlake" "ANY" "apigateway.Method"
     [("integration",
       "https://healthlake." ++ region ++ ".amazonaws.com/datastore/"
       ++ attr "HealthLakeStore" "attrDatastoreId" ++ "/r4");
      ("authorizer", "LambdaAuthorizer"); ("authorizationType", "CUSTOM")];;
   call lib "AuthLambda" "addToRolePolicy";;
   declare lib id "ApiDomainName" "apigateway.DomainName"
     [("domainName", apiDomainName props); ("certificate", "ApiCertificate");
      ("endpointType", "REGIONAL")];;
   declare lib id "ApiBasePathMapping" "apigateway.BasePathMapping"
     [("domainName", "ApiDomainName"); ("restApi", "HealthLakeApi")];;
   declare lib id "ApiDomainRecord" "route53.ARecord"
     [("zone", "HostedZone"); ("recordName", apiDomainName props);
      ("target", "ApiGatewayDomain(ApiDomainName)")];;
   declare lib id "ApiUrl" "cdk.CfnOutput"
     [("value", attr "HealthLakeApi" "url"); ("description", "API Gateway URL")];;
   declare lib id "UserPoolId" "cdk.CfnOutput"
     [("value", attr "HealthLakeUserPool" "userPoolId");
      ("description", "Cognito User Pool ID")];;
   declare lib id "UserPoolClientId" "cdk.CfnOutput"
     [("value", attr "HealthLakeUserPoolClient" "userPoolClientId");
      ("description", "Cognito App Client ID")];;
   declare lib id "HealthLakeDatastoreId" "cdk.CfnOutput"
     [("value", attr "HealthLakeStore" "attrDatastoreId");
      ("description", "HealthLake Datastore ID for SMART on FHIR configuration")];;
   declare lib id "SmartOnFhirLambdaArn" "cdk.CfnOutput"
     [("value", attr "SmartOnFhirIdpLambda" "functionArn");
      ("description", "ARN of the SMART on FHIR Identity Provider Lambda")];;
   declare lib id "SetupInstructions" "cdk.CfnOutput"
     [("value",
       "After deployment, update the SMART on FHIR metadata in HealthLake console with the actual datastore ID and Lambda ARN");
      ("description", "Post-deployment steps")];;
   declare lib id "ApiDomain" "cdk.CfnOutput"
     [("value", "https://" ++ apiDomainName props)];;
   (if truthy (cognitoCertificateArn props)
    then declare lib id "CognitoDomain" "cdk.CfnOutput"
           [("value", "https://" ++ authDomainName props)]
    else sret tt);;
   declare lib id "HealthLakeExecutionRoleArn" "cdk.CfnOutput"
     [("value", attr "HealthLakeSMARTonFHIRRole" "roleArn");
      ("description", "ARN of the IAM role that HealthLake can assume")])%cdk.

(** [process.env] of the deployment script. *)
Record DeployEnv : Type := {
  AUTH_DOMAIN_NAME : option string;
  API_DOMAIN_NAME : option string;
  HOSTED_ZONE_NAME : option string;
  HOSTED_ZONE_ID : option string;
  COGNITO_CERTIFICATE_ARN : option string
}.

(** The script bin/healthlake-cdk.ts; the stacks are children of the app. *)
Definition main (lib : Library) (env : DeployEnv) : Synth unit :=
  if negb (truthy (AUTH_DOMAIN_NAME env)) || negb (truthy (API_DOMAIN_NAME env))
     || negb (truthy (HOSTED_ZONE_NAME env)) || negb (truthy (HOSTED_ZONE_ID env))
  then sthrow (ErrorObject "Missing required environment variables. 
    Required: AUTH_DOMAIN_NAME, API_DOMAIN_NAME, HOSTED_ZONE_NAME, HOSTED_ZONE_ID
    Optional: COGNITO_CERTIFICATE_ARN")
  else
    ((if negb (truthy (COGNITO_CERTIFICATE_ARN env))
      then (CognitoCertificateStack lib "App" "CognitoCertificateStack"
              (to_str (AUTH_DOMAIN_NAME env)) (to_str (HOSTED_ZONE_NAME env))
              (to_str (HOSTED_ZONE_ID env));;
            declare lib "CognitoCertificateStack" "CertificateInstructions"
              "cdk.CfnOutput"
              [("value",
                "Deploy this stack first to create the certificate in us-east-1. Then set the COGNITO_CERTIFICATE_ARN environment variable to the output value above and deploy the main stack.")])
      else sret tt);;
     HealthlakeCdkStack lib "App" "TestHealthlakeCdkStack"
       {| authDomainName := to_str (AUTH_DOMAIN_NAME env);
          apiDomainName := to_str (API_DOMAIN_NAME env);
          hostedZoneName := to_str (HOSTED_ZONE_NAME env);
          hostedZoneId := to_str (HOSTED_ZONE_ID env);
          cognitoCertificateArn := COGNITO_CERTIFICATE_ARN env |})%cdk.

End Cdk.

(** * A sample host, for the closed examples

    The sample [URL] parser is for endpoints of the kind the examples use:
    [http://] or [https://] in lower case; a host name of non-empty labels
    of lower-case letters, digits and hyphens separated by dots, none of them
    starting with [xn--] and the last one of letters only, without port or
    credentials; then an absolute path without dot segments and an optional
    query, both made of letters, digits and the characters [/ - . _ ~ = &].  On these it agrees with the WHATWG parser,
    and like that parser it rejects the string [undefined]; other strings
    are outside its domain (it does not percent-encode, and it does not check
    a port).  The sample [URLSearchParams] covers queries without percent
    escapes. *)

Module Sample.
Import Bridge.

Fixpoint take_until (stop : ascii -> bool) (s : string) : string * string :=
  match s with
  | EmptyString => (EmptyString, EmptyString)
  | String a rest =>
      if stop a then (EmptyString, s)
      else let (taken, left) := take_until stop rest in (String a taken, left)
  end.

Definition strip_prefix (p s : string) : option string :=
  if prefix p s then Some (drop (String.length p) s) else None.

Definition is_one_of (stops : list ascii) (a : ascii) : bool :=
  existsb (Ascii.eqb a) stops.

Definition new_URL (s : string) : option URL :=
  let after_scheme :=
    match strip_prefix "https://" s with
    | Some r => Some r
    | None => strip_prefix "http://" s
    end in
  match after_scheme with
  | None => None
  | Some r =>
      let (host, r1) := take_until (is_one_of ["/"; "?"; "#"]%char) r in
      let (path, r2) := take_until (is_one_of ["?"; "#"]%char) r1 in
      let (query, _) := take_until (is_one_of ["#"]%char) r2 in
      if String.eqb host EmptyString then None
      else Some {| pathname := if String.eqb path EmptyString then "/" else path;
                   search := if String.eqb query "?" then EmptyString else query |}
  end.

Fixpoint plus_to_space (s : string) : string :=
  match s with
  | EmptyString => EmptyString
  | String a rest =>
      String (if Ascii.eqb a "+"%char then " "%char else a) (plus_to_space rest)
  end.

Definition parse_pair (piece : string) : string * string :=
  let (name, rest) := take_until (is_one_of ["="]%char) piece in
  (plus_to_space name, plus_to_space (drop 1 rest)).

Fixpoint first_value (name : string) (pieces : list string) : option string :=
  match pieces with
  | [] => None
  | piece :: rest =>
      if String.eqb piece EmptyString then first_value name rest
      else let (n, v) := parse_pair piece in
           if String.eqb n name then Some v else first_value name rest
  end.

Definition URLSearchParams_get (init name : string) : option string :=
  let body := match strip_prefix "?" init with
              | Some r => r
              | None => init
              end in
  first_value name (split "&"%char body).

(** Members of the built-ins behind [Object.prototype] on Node 18: the
    prototype object itself (reached by [__proto__]), the [Object]
    constructor (reached by [constructor]) and ten plain built-in functions. *)
Definition Object_static_names : list string :=
  [ "assign"; "create"; "defineProperties"; "defineProperty"; "entries";
    "freeze"; "fromEntries"; "getOwnPropertyDescriptor";
    "getOwnPropertyDescriptors"; "getOwnPropertyNames";
    "getOwnPropertySymbols"; "getPrototypeOf"; "hasOwn"; "is"; "isExtensible";
    "isFrozen"; "isSealed"; "keys"; "preventExtensions"; "seal";
    "setPrototypeOf"; "values"; "prototype" ].

Definition builtin_member (object member : string) : Member :=
  if String.eqb object "__proto__" then
    if String.eqb member "__proto__" then Falsy
    else if array_includes member Object_prototype_names then Truthy
    else Falsy
  else if array_includes member Object_prototype_names then Truthy
  else if array_includes member ["name"; "call"; "apply"; "bind"] then Truthy
  else if array_includes member ["caller"; "arguments"] then AccessThrows
  else if String.eqb member "length" then
    if array_includes object ["toString"; "valueOf"; "toLocaleString"]
    then Falsy else Truthy
  else if String.eqb object "constructor" then
    if array_includes member Object_static_names then Truthy else Falsy
  else Falsy.

(** 2026-11-03T00:00:00.250Z. *)
Definition host : Host :=
  {| Bridge.new_URL := new_URL;
     Bridge.URLSearchParams_get := URLSearchParams_get;
     Bridge.builtin_member := builtin_member;
     Date_now := 1793664000250 |}.

(** A user pool: access token, user name, groups. *)
Definition users : list (string * (string * list string)) :=
  [ ("token-P1", ("P1", ["Patients"]));
    ("token-dr", ("dr-lee", ["Practitioners"]));
    ("token-both", ("P7", ["Practitioners"; "Patients"]));
    ("token-root", ("root", ["Administrators"]));
    ("token-odd", ("ops", ["constructor"; "Administrators"]));
    ("token-none", ("guest", [])) ].

Fixpoint groups_of (name : string) (pool : list (string * (string * list string)))
    : option (list string) :=
  match pool with
  | [] => None
  | (_, (n, g)) :: rest => if String.eqb n name then Some g else groups_of name rest
  end.

Definition directory (pool : list (string * (string * list string))) : Cognito :=
  {| getUser := fun token =>
       match own_get pool token with
       | Some (name, _) => inr name
       | None => inl (ServiceError "NotAuthorizedException")
       end;
     adminListGroupsForUser := fun name =>
       match name with
       | None => inl (ServiceError "MissingRequiredParameter")
       | Some n => match groups_of n pool with
                   | Some g => inr g
                   | None => inl (ServiceError "UserNotFoundException")
                   end
       end |}.

Definition cognito : Cognito := directory users.



Definition role_arn : string := "arn:aws:iam::123456789012:role/healthlake-exec".

Definition env : ProcessEnv :=
  {| HEALTHLAKE_ROLE_ARN := Some role_arn;
     OAUTH2_SERVER_URL := None |}.

Definition request (op endpoint token : string) : LambdaEvent :=
  {| operationName := Some op;
     datastoreEndpoint := Some endpoint;
     bearerToken := Some token |}.

Definition base : string :=
  "https://healthlake.us-east-1.amazonaws.com/datastore/ds1/r4".

(** A practitioner searches patients by name, lists them, creates one. *)
Definition search_by_name : LambdaEvent :=
  request "SearchWithGet" (base ++ "/Patient?name=Ann") "token-dr".

Definition search_by_name_payload : AuthPayload :=
  {| iss := "https://main-oauth2-server-link.com/oauth2/token";
     aud := base ++ "/Patient?name=Ann";
     iat := 1793664000;
     nbf := 1793664000;
     exp := 1793667600;
     isAuthorized := true;
     scope := "system/*.*";
     sub := "dr-lee" |}.

Definition search_all : LambdaEvent :=
  request "SearchAll" (base ++ "/Patient") "token-dr".

Definition create_patient : LambdaEvent :=
  request "CreateResource" (base ++ "/Patient") "token-dr".

(** Patient P1 reads the own record and another one, and searches with the
    own id. *)
Definition read_own : LambdaEvent :=
  request "ReadResource" (base ++ "/Patient/P1") "token-P1".

Definition read_other : LambdaEvent :=
  request "ReadResource" (base ++ "/Patient/P2") "token-P1".

Definition search_own : LambdaEvent :=
  request "SearchWithGet" (base ++ "/Patient?patient=P1") "token-P1".

(** Patient P1 sends a request without [datastoreEndpoint]. *)
Definition no_endpoint : LambdaEvent :=
  {| operationName := Some "ReadResource";
     datastoreEndpoint := None;
     bearerToken := Some "token-P1" |}.

(** An administrator who is also in a group named [constructor]. *)
Definition read_as_ops : LambdaEvent :=
  request "ReadResource" (base ++ "/Patient") "token-odd".

(** Patient P1 lists patients. *)
Definition list_as_patient : LambdaEvent :=
  request "SearchAll" (base ++ "/Patient") "token-P1".

(** Patient P1 updates a patient, and reads under a path that holds the id
    inside a longer segment. *)
Definition update_as_patient : LambdaEvent :=
  request "UpdateResource" (base ++ "/Patient") "token-P1".

Definition read_inside_segment : LambdaEvent :=
  request "ReadResource"
    "https://healthlake.us-east-1.amazonaws.com/datastore/XP1X/r4/Patient" "token-P1".


(** An administrator sends a request without endpoint for an operation the
    switch does not know. *)
Definition bare_as_root : LambdaEvent :=
  {| operationName := Some "PatchResource";
     datastoreEndpoint := None;
     bearerToken := Some "token-root" |}.

(** A practitioner reads a resource type the table does not list. *)
Definition read_encounter : LambdaEvent :=
  request "ReadResource" (base ++ "/Encounter") "token-dr".

(** A user without groups asks for an operation the switch does not know,
    and reads under a path whose last segment is [toString]. *)
Definition unknown_operation : LambdaEvent :=
  request "PatchResource" (base ++ "/Patient") "token-none".

Definition read_toString : LambdaEvent :=
  request "ReadResource" (base ++ "/toString") "token-none".


(** Bearer tokens for the authorizer: token, key id, whether the signature
    and the temporal claims verify, and the payload. *)
Definition claims_of (subject : string) (names : option (list string))
    : Authorizer.Claims :=
  {| Authorizer.sub := Some subject;
     Authorizer.email := None;
     Authorizer.preferred_username := None;
     Authorizer.cognito_groups := names |}.

Definition tokens : list (string * (string * (bool * Authorizer.Claims))) :=
  [ ("jwt-patient", ("key-1", (true, claims_of "P1" (Some ["Patients"]))));
    ("jwt-plain", ("key-1", (true, claims_of "guest" None)));
    ("jwt-odd", ("key-1", (true, claims_of "ops" (Some ["constructor"]))));
    ("jwt-expired", ("key-1", (false, claims_of "P1" (Some ["Patients"]))));
    ("jwt-stranger", ("key-9", (true, claims_of "P1" (Some ["Patients"])))) ].

Definition jwt : Authorizer.Jwt :=
  {| Authorizer.decode := fun token =>
       match own_get tokens token with
       | Some (key_id, (_, claims)) =>
           inr (Some {| Authorizer.header := Some {| Authorizer.kid := Some key_id |};
                        Authorizer.payload := Some claims |})
       | None => inr None
       end;
     Authorizer.client_getSigningKey := fun key_id =>
       if strict_eq key_id "key-1" then (None, Some "public-key-1")
       else (Some (ErrorObject "Unable to find a signing key that matches"), None);
     Authorizer.verify := fun token key =>
       match own_get tokens token with
       | Some (_, (true, claims)) =>
           if String.eqb key "public-key-1" then inr claims
           else inl (ErrorObject "invalid signature")
       | Some (_, (false, _)) => inl (ErrorObject "jwt expired")
       | None => inl (ErrorObject "jwt malformed")
       end |}.

(** A construct library that never throws, and the variables of the README
    with and without a certificate. *)
Definition library : Cdk.Library :=
  {| Cdk.construct_fails := fun _ _ => None;
     Cdk.call_fails := fun _ _ => None |}.

Definition deploy_env (certificate : option string) : Cdk.DeployEnv :=
  {| Cdk.AUTH_DOMAIN_NAME := Some "auth.mydomain.com";
     Cdk.API_DOMAIN_NAME := Some "api.mydomain.com";
     Cdk.HOSTED_ZONE_NAME := Some "mydomain.com";
     Cdk.HOSTED_ZONE_ID := Some "Z09773219GD7CGO9RMZF";
     Cdk.COGNITO_CERTIFICATE_ARN := certificate |}.

Definition certificate_arn : string :=
  "arn:aws:acm:us-east-1:123456789012:certificate/981bb57d".

(** A library whose [UserPoolDomain] constructor throws [e]. *)
Definition failing_library (e : JSError) : Cdk.Library :=
  {| Cdk.construct_fails := fun _ id =>
       if String.eqb id "UserPoolDomain" then Some e else None;
     Cdk.call_fails := fun _ _ => None |}.

Definition call (token arn : string) : Authorizer.AuthorizerEvent :=
  {| Authorizer.authorizationToken := Some token;
     Authorizer.methodArn := Some arn |}.

Definition arn : string := "arn:aws:execute-api:eu-west-1:123456789012:api/prod/GET/Patient".

Definition patient_call : Authorizer.AuthorizerEvent := call "Bearer jwt-patient" arn.
Definition expired_call : Authorizer.AuthorizerEvent := call "Bearer jwt-expired" arn.
Definition plain_call : Authorizer.AuthorizerEvent := call "Bearer jwt-plain" arn.
Definition odd_call : Authorizer.AuthorizerEvent := call "Bearer jwt-odd" arn.

End Sample.

(** * Views of a run, and the spec's wording of two rules *)

(** A computation that only adds to the trace: its events and its outcome
    do not depend on the trace it starts from. *)
Definition writes_only {A : Type} (m : M A) : Prop :=
  forall tr, m tr = ((tr ++ events m)%list, outcome m []).

(** The user the bridge handler resolves on line 14, and the result of the
    permission check it then runs on line 15. *)
Definition resolved_user (c : Bridge.Cognito) (event : Bridge.LambdaEvent)
    : Bridge.UserInfo :=
  match outcome (Bridge.getUserInfo c event) [] with
  | inr userInfo => userInfo
  | inl _ => Bridge.UserObject None
  end.

Definition decision (h : Bridge.Host) (c : Bridge.Cognito) (event : Bridge.LambdaEvent)
    (userInfo : Bridge.UserInfo) : bool :=
  match outcome (Bridge.checkUserPermissions h c event userInfo) [] with
  | inr allowed => allowed
  | inl _ => false
  end.


(** A group name spreads when [policies[group] || []] is iterable, that is
    when the name does not reach a member of [Object.prototype]; the actions it
    then contributes are its own entry, or none. *)
Definition spreads (userId : option string) (group : string) : bool :=
  match object_get (policies userId) group with
  | Inherited => false
  | _ => true
  end.

Definition own_actions (userId : option string) (group : string) : list string :=
  match own_get (policies userId) group with
  | Some actions => actions
  | None => []
  end.

Definition is_scoped (action : string) : bool := includes "?" action.

(** The scope test the code applies to one scoped entry, for operations
    other than [SearchWithGet]: the bound value must occur in the path for
    [UpdateResource], [DeleteResource] and [ReadResource]; the other
    operations test nothing. *)
Definition scope_holds (h : Bridge.Host) (event : Bridge.LambdaEvent) (url : Bridge.URL)
    (action : string) : bool :=
  if strict_eq (Bridge.operationName event) "UpdateResource"
     || strict_eq (Bridge.operationName event) "DeleteResource"
     || strict_eq (Bridge.operationName event) "ReadResource"
  then Bridge.endpointPathMatch h url (at_index (split "?" action) 1)
  else true.



(** What the code computes: some entry matches, and EVERY scoped entry that
    matches has its constraint hold. *)
Definition code_satisfied (holds : string -> bool) (allowed : list string)
    (permission : string) : bool :=
  existsb (Bridge.action_matches permission) allowed
  && forallb (fun action =>
                implb (Bridge.action_matches permission action && is_scoped action)
                      (holds action))
             allowed.






(** The spec's rule for incomplete input (section 8): a missing
    [bearerToken] or [datastoreEndpoint] yields [invalid_request], and no
    permission check has run by then. *)
Definition missing_field (event : Bridge.LambdaEvent) : bool :=
  negb (truthy (Bridge.bearerToken event))
  || negb (truthy (Bridge.datastoreEndpoint event)).

Definition is_invalid_request (r : Exc Bridge.Response) : bool :=
  match r with
  | inr (Bridge.ErrorResponse status code _) =>
      Z.eqb status 400 && String.eqb code "invalid_request"
  | _ => false
  end.

Definition is_group_lookup (e : Event) : bool :=
  match e with
  | CognitoAdminListGroupsForUser _ => true
  | _ => false
  end.

Definition spec_invalid_request_first (h : Bridge.Host) (c : Bridge.Cognito)
    (env : Bridge.ProcessEnv) (event : Bridge.LambdaEvent) : Prop :=
  missing_field event = true ->
  is_invalid_request (outcome (Bridge.handler h c env event) []) = true
  /\ existsb is_group_lookup (events (Bridge.handler h c env event)) = false.

(** The token the authorizer works on (line 30), the groups it reads from a
    verified payload (line 49), and the ways a stage of its [try] block can
    fail: the token is absent; decoding throws or yields no header and payload;
    the key is not resolved; verification throws; the claims cannot be turned
    into scopes. *)
Definition token_of (event : Authorizer.AuthorizerEvent) : string :=
  replace "Bearer " EmptyString (to_str (Authorizer.authorizationToken event)).

Definition groups_of_claims (claims : Authorizer.Claims) : list string :=
  match Authorizer.cognito_groups claims with
  | Some names => names
  | None => []
  end.

Definition decoded_head (decoded : option Authorizer.Decoded)
    : option Authorizer.JwtHeader :=
  match decoded with
  | Some {| Authorizer.header := Some head; Authorizer.payload := Some _ |} => Some head
  | _ => None
  end.

Definition resolved_key (j : Authorizer.Jwt) (kid : option string) : option string :=
  match Authorizer.client_getSigningKey j kid with
  | (None, Some key) => Some key
  | _ => None
  end.

Inductive stage_failure (j : Authorizer.Jwt) (event : Authorizer.AuthorizerEvent)
    : Prop :=
| token_absent :
    truthy (Authorizer.authorizationToken event) = false ->
    stage_failure j event
| decode_throws e :
    truthy (Authorizer.authorizationToken event) = true ->
    Authorizer.decode j (token_of event) = inl e ->
    stage_failure j event
| decode_incomplete decoded :
    truthy (Authorizer.authorizationToken event) = true ->
    Authorizer.decode j (token_of event) = inr decoded ->
    decoded_head decoded = None ->
    stage_failure j event
| key_unresolved decoded head :
    truthy (Authorizer.authorizationToken event) = true ->
    Authorizer.decode j (token_of event) = inr decoded ->
    decoded_head decoded = Some head ->
    resolved_key j (Authorizer.kid head) = None ->
    stage_failure j event
| verification_throws decoded head key e :
    truthy (Authorizer.authorizationToken event) = true ->
    Authorizer.decode j (token_of event) = inr decoded ->
    decoded_head decoded = Some head ->
    resolved_key j (Authorizer.kid head) = Some key ->
    Authorizer.verify j (token_of event) key = inl e ->
    stage_failure j event
| extraction_throws decoded head key claims e :
    truthy (Authorizer.authorizationToken event) = true ->
    Authorizer.decode j (token_of event) = inr decoded ->
    decoded_head decoded = Some head ->
    resolved_key j (Authorizer.kid head) = Some key ->
    Authorizer.verify j (token_of event) key = inr claims ->
    allowedActions (Authorizer.sub claims) (groups_of_claims claims) = inl e ->
    stage_failure j event.

(** A token passes signature and temporal verification when every stage up
    to [jwt.verify] succeeds and yields its payload. *)
Definition verified (j : Authorizer.Jwt) (event : Authorizer.AuthorizerEvent)
    (claims : Authorizer.Claims) : Prop :=
  truthy (Authorizer.authorizationToken event) = true
  /\ exists decoded head key,
       Authorizer.decode j (token_of event) = inr decoded
       /\ decoded_head decoded = Some head
       /\ resolved_key j (Authorizer.kid head) = Some key
       /\ Authorizer.verify j (token_of event) key = inr claims.

(** The eight operation names of the switch on lines 33-49. *)
Definition supported_operation (name : string) : bool :=
  array_includes name
    [ "CreateResource"; "DeleteResource"; "ReadResource"; "SearchAll";
      "SearchWithGet"; "SearchWithPost"; "StartFHIRExportJobWithPost";
      "UpdateResource" ].

(** ** Further views, for the properties beyond the claims *)

(** The success response built on lines 192-204 for the user handed to
    [forwardRequestToHealthLake]. *)
Definition assertion (h : Bridge.Host) (env : Bridge.ProcessEnv)
    (event : Bridge.LambdaEvent) (userInfo : Bridge.UserInfo) : Bridge.Response :=
  Bridge.Forwarded
    {| Bridge.iss := to_str (or_else (Bridge.OAUTH2_SERVER_URL env)
                       (Some "https://main-oauth2-server-link.com/oauth2/token"));
       Bridge.aud := to_str (Bridge.datastoreEndpoint event);
       Bridge.iat := (Bridge.Date_now h / 1000)%Z;
       Bridge.nbf := (Bridge.Date_now h / 1000)%Z;
       Bridge.exp := (Bridge.Date_now h / 1000 + 3600)%Z;
       Bridge.isAuthorized := true;
       Bridge.scope := "system/*.*";
       Bridge.sub := to_str (or_else (Bridge.Username userInfo) (Some "anonymous")) |}
    (to_str (Bridge.HEALTHLAKE_ROLE_ARN env)).

(** The user an operation handler passes on: [handleSearchAll] passes the
    import from ['os'], the other handlers the resolved user. *)
Definition forwarded_user (name : string) (userInfo : Bridge.UserInfo)
    : Bridge.UserInfo :=
  if String.eqb name "SearchAll" then Bridge.os_userInfo else userInfo.

(** The resource type the check derives from a parsed endpoint (line 310),
    and whether it is one of the two keys of the permission table. *)
Definition resourcePath_of (url : Bridge.URL) : option string :=
  pop (split "/" (Bridge.pathname url)).

Definition listed_resource (resourcePath : option string) : bool :=
  strict_eq resourcePath "Patient" || strict_eq resourcePath "Observation".

(** The two entries the [Patients] policy builds for a user id. *)
Definition patient_entry (userId : option string) : string :=
  "Patient.read?patient=" ++ to_str userId.

Definition observation_entry (userId : option string) : string :=
  "Observation.read?subject=" ++ to_str userId.

(** The four operations for which the table asks the write permission; the
    other four supported operations ask the read permission. *)
Definition is_write_operation (name : string) : bool :=
  array_includes name
    [ "CreateResource"; "DeleteResource"; "UpdateResource";
      "StartFHIRExportJobWithPost" ].

Definition required_permission (resource name : string) : string :=
  resource ++ (if is_write_operation name then ".write" else ".read").

Definition is_cognito_call (e : Event) : bool :=
  match e with
  | CognitoGetUser _ => true
  | CognitoAdminListGroupsForUser _ => true
  | _ => false
  end.

Definition is_jwks_fetch (e : Event) : bool :=
  match e with
  | JwksGetSigningKey _ => true
  | _ => false
  end.

(** ** Views of a synthesized tree *)

(** A library none of whose constructors and methods throws. *)
Definition quiet (lib : Cdk.Library) : Prop :=
  (forall scope id, Cdk.construct_fails lib scope id = None)
  /\ (forall receiver method, Cdk.call_fails lib receiver method = None).

(** The tree and the outcome of running the deployment script. *)
Definition synthesized (lib : Cdk.Library) (env : Cdk.DeployEnv) : list Cdk.Entry :=
  fst (Cdk.main lib env []).

Definition synthesis (lib : Cdk.Library) (env : Cdk.DeployEnv) : Exc unit :=
  snd (Cdk.main lib env []).

(** The ids declared in a scope, in order. *)
Definition children (scope : string) (tree : list Cdk.Entry) : list string :=
  flat_map (fun e => match e with
                     | Cdk.Declared s i _ _ => if String.eqb s scope then [i] else []
                     | Cdk.Called _ _ => []
                     end) tree.

Fixpoint props_of (scope id : string) (tree : list Cdk.Entry)
    : option (list (string * string)) :=
  match tree with
  | [] => None
  | Cdk.Declared s i _ props :: rest =>
      if String.eqb s scope && String.eqb i id then Some props
      else props_of scope id rest
  | Cdk.Called _ _ :: rest => props_of scope id rest
  end.

(** The environment a declared Lambda function is given. *)
Definition environment_of (scope id : string) (tree : list Cdk.Entry)
    : list (string * string) :=
  match props_of scope id tree with
  | None => []
  | Some props =>
      flat_map (fun kv => if prefix "environment." (fst kv)
                          then [(drop 12 (fst kv), snd kv)]
                          else [])
               props
  end.

(** The two variables the identity-provider Lambda reads from its
    environment (part_001 lines 176 and 194). *)
Definition process_env_of (environment : list (string * string)) : Bridge.ProcessEnv :=
  {| Bridge.HEALTHLAKE_ROLE_ARN := own_get environment "HEALTHLAKE_ROLE_ARN";
     Bridge.OAUTH2_SERVER_URL := own_get environment "OAUTH2_SERVER_URL" |}.

(** The names of the user pool groups a tree declares. *)
Definition group_names (tree : list Cdk.Entry) : list string :=
  flat_map (fun e => match e with
                     | Cdk.Declared _ _ class props =>
                         if String.eqb class "cognito.CfnUserPoolGroup"
                         then match own_get props "groupName" with
                              | Some name => [name]
                              | None => []
                              end
                         else []
                     | Cdk.Called _ _ => []
                     end) tree.

(** The four variables the script requires, and the subdomain rule the
    stack applies when a certificate is given. *)
Definition complete (env : Cdk.DeployEnv) : bool :=
  truthy (Cdk.AUTH_DOMAIN_NAME env) && truthy (Cdk.API_DOMAIN_NAME env)
  && truthy (Cdk.HOSTED_ZONE_NAME env) && truthy (Cdk.HOSTED_ZONE_ID env).

Definition auth_is_subdomain (env : Cdk.DeployEnv) : bool :=
  Cdk.endsWith ("." ++ to_str (Cdk.HOSTED_ZONE_NAME env))
               (to_str (Cdk.AUTH_DOMAIN_NAME env)).

(** * Results *)

(** ** Computations only add to the trace *)

Section Writer.
Context {A B : Type}.

Lemma writes_only_ret (a : A) : writes_only (ret a).
Proof. intro tr. unfold ret, events, outcome. simpl. now rewrite app_nil_r. Qed.

Lemma writes_only_throw (e : JSError) : writes_only (@throw A e).
Proof. intro tr. unfold throw, events, outcome. simpl. now rewrite app_nil_r. Qed.

Lemma writes_only_lift (x : Exc A) : writes_only (lift x).
Proof. intro tr. unfold lift, events, outcome. simpl. now rewrite app_nil_r. Qed.

Lemma writes_only_bind (m : M A) (k : A -> M B) :
  writes_only m -> (forall a, writes_only (k a)) -> writes_only (bind m k).
Proof.
  intros Hm Hk tr. unfold events, outcome, bind.
  rewrite (Hm tr), (Hm []). simpl.
  destruct (outcome m []) as [e | a]; simpl.
  - reflexivity.
  - rewrite (Hk a (tr ++ events m)%list), (Hk a (events m)). simpl.
    now rewrite app_assoc.
Qed.

Lemma writes_only_try_catch (m : M A) (handle : JSError -> M A) :
  writes_only m -> (forall e, writes_only (handle e)) -> writes_only (try_catch m handle).
Proof.
  intros Hm Hh tr. unfold events, outcome, try_catch.
  rewrite (Hm tr), (Hm []). simpl.
  destruct (outcome m []) as [e | a]; simpl.
  - rewrite (Hh e (tr ++ events m)%list), (Hh e (events m)). simpl.
    now rewrite app_assoc.
  - reflexivity.
Qed.

End Writer.

Lemma writes_only_emit (e : Event) : writes_only (emit e).
Proof. intro tr. reflexivity. Qed.

Lemma writes_only_outcome {A : Type} (m : M A) (tr : Trace) :
  writes_only m -> outcome m tr = outcome m [].
Proof. intros Hm. unfold outcome at 1. now rewrite (Hm tr). Qed.

(** [writer_with known] proves [writes_only] goals by following the shape
    of the computation, closing calls to other functions with [known]. *)
Ltac writer_with known :=
  unfold console_log, console_warn, console_error;
  repeat first
    [ known
    | apply writes_only_ret
    | apply writes_only_throw
    | apply writes_only_lift
    | apply writes_only_emit
    | apply writes_only_bind
    | apply writes_only_try_catch
    | match goal with
      | |- forall _, _ => intro
      | |- writes_only (if ?b then _ else _) => destruct b
      | |- writes_only (match ?x with _ => _ end) => destruct x
      | |- writes_only (let _ := _ in _) => cbv zeta
      end ].

Ltac writer := writer_with fail.

Lemma forwardRequestToHealthLake_writes_only h env event userInfo :
  writes_only (Bridge.forwardRequestToHealthLake h env event userInfo).
Proof. unfold Bridge.forwardRequestToHealthLake, console_log, console_error. writer. Qed.

Lemma dispatch_writes_only h env event userInfo name :
  writes_only (Bridge.dispatch h env event userInfo name).
Proof.
  unfold Bridge.dispatch, Bridge.handleCreateResource, Bridge.handleDeleteResource,
    Bridge.handleReadResource, Bridge.handleSearchAll, Bridge.handleSearchWithGet,
    Bridge.handleSearchWithPost, Bridge.handleStartFHIRExportJobWithPost,
    Bridge.handleUpdateResource, console_log.
  repeat match goal with
         | |- writes_only (if ?b then _ else _) => destruct b
         end;
    try apply forwardRequestToHealthLake_writes_only.
  writer.
Qed.

Lemma getUserInfo_writes_only c event : writes_only (Bridge.getUserInfo c event).
Proof. unfold Bridge.getUserInfo, console_log, console_error. writer. Qed.

Lemma checkUserPermissions_writes_only h c event userInfo :
  writes_only (Bridge.checkUserPermissions h c event userInfo).
Proof. unfold Bridge.checkUserPermissions, console_log, console_error. writer. Qed.

Ltac bridge_writer :=
  writer_with ltac:(first [ apply getUserInfo_writes_only
                          | apply checkUserPermissions_writes_only
                          | apply dispatch_writes_only
                          | apply forwardRequestToHealthLake_writes_only ]).


(** ** Outcomes of sequenced computations *)

Lemma outcome_bind {A B : Type} (m : M A) (k : A -> M B) (tr : Trace) :
  writes_only m ->
  outcome (bind m k) tr =
  match outcome m [] with
  | inl e => inl e
  | inr a => outcome (k a) (tr ++ events m)%list
  end.
Proof.
  intros Hm. unfold outcome at 1. unfold bind. rewrite (Hm tr).
  destruct (outcome m []); reflexivity.
Qed.

Lemma outcome_try_catch {A : Type} (m : M A) (handle : JSError -> M A) (tr : Trace) :
  writes_only m ->
  outcome (try_catch m handle) tr =
  match outcome m [] with
  | inl e => outcome (handle e) (tr ++ events m)%list
  | inr a => inr a
  end.
Proof.
  intros Hm. unfold outcome at 1. unfold try_catch. rewrite (Hm tr).
  destruct (outcome m []); reflexivity.
Qed.

Lemma outcome_emit_bind {B : Type} (e : Event) (k : unit -> M B) (tr : Trace) :
  outcome (bind (emit e) k) tr = outcome (k tt) (tr ++ [e])%list.
Proof. reflexivity. Qed.

Lemma outcome_lift_bind {A B : Type} (x : Exc A) (k : A -> M B) (tr : Trace) :
  outcome (bind (lift x) k) tr =
  match x with
  | inl e => inl e
  | inr a => outcome (k a) tr
  end.
Proof. unfold outcome, bind, lift. destruct x; reflexivity. Qed.

Lemma outcome_ret {A : Type} (a : A) (tr : Trace) : outcome (ret a) tr = inr a.
Proof. reflexivity. Qed.

Lemma events_bind {A B : Type} (m : M A) (k : A -> M B) :
  writes_only m -> (forall a, writes_only (k a)) ->
  events (bind m k) =
  (events m ++ match outcome m [] with
               | inl _ => []
               | inr a => events (k a)
               end)%list.
Proof.
  intros Hm Hk. unfold events at 1. unfold bind. rewrite (Hm []). simpl.
  destruct (outcome m []) as [e | a]; simpl.
  - now rewrite app_nil_r.
  - now rewrite (Hk a (events m)).
Qed.

Lemma events_try_catch {A : Type} (m : M A) (handle : JSError -> M A) :
  writes_only m -> (forall e, writes_only (handle e)) ->
  events (try_catch m handle) =
  (events m ++ match outcome m [] with
               | inl e => events (handle e)
               | inr _ => []
               end)%list.
Proof.
  intros Hm Hh. unfold events at 1. unfold try_catch. rewrite (Hm []). simpl.
  destruct (outcome m []) as [e | a]; simpl.
  - now rewrite (Hh e (events m)).
  - now rewrite app_nil_r.
Qed.

(** ** The bridge: the permission check as a function of its inputs *)

(** The check never throws: its [catch] turns every exception into [false]. *)
Lemma checkUserPermissions_outcome h c event userInfo tr :
  outcome (Bridge.checkUserPermissions h c event userInfo) tr
  = inr (decision h c event userInfo).
Proof.
  rewrite (writes_only_outcome _ tr (checkUserPermissions_writes_only h c event userInfo)).
  unfold decision.
  destruct (outcome (Bridge.checkUserPermissions h c event userInfo) []) as [e | b] eqn:E;
    [| reflexivity].
  exfalso. revert E. unfold Bridge.checkUserPermissions.
  rewrite outcome_try_catch.
  - match goal with
    | |- context [outcome ?m []] => destruct (outcome m [])
    end; discriminate.
  - unfold console_log. writer.
Qed.

(** The decision, read off the code step by step: a failed group lookup, a
    group that does not spread, an endpoint that does not parse, a resource
    type without an entry and an exception inside the matching all deny. *)
Lemma decision_unfold h c event userInfo :
  decision h c event userInfo =
  match Bridge.adminListGroupsForUser c (Bridge.Username userInfo) with
  | inl _ => false
  | inr names =>
      match allowedActions (Bridge.Username userInfo) names with
      | inl _ => false
      | inr allowed =>
          if array_includes "*" allowed then true
          else
            match Bridge.URL_of h (Bridge.datastoreEndpoint event) with
            | inl _ => false
            | inr url =>
                match Bridge.requiredPermissions h
                        (pop (split "/" (Bridge.pathname url)))
                        (Bridge.operationName event) with
                | inl _ => false
                | inr required =>
                    match Bridge.required_every required
                            (Bridge.permission_callback h event allowed) with
                    | inl _ => false
                    | inr ok => ok
                    end
                end
            end
      end
  end.
Proof.
  unfold decision, Bridge.checkUserPermissions, outcome, try_catch, bind, lift,
    console_log, console_error, emit, ret. simpl.
  destruct (Bridge.adminListGroupsForUser c (Bridge.Username userInfo)); simpl;
    [reflexivity |].
  destruct (allowedActions (Bridge.Username userInfo) l); simpl; [reflexivity |].
  destruct (array_includes "*" l0); simpl; [reflexivity |].
  destruct (Bridge.URL_of h (Bridge.datastoreEndpoint event)); simpl; [reflexivity |].
  destruct (Bridge.requiredPermissions h _ (Bridge.operationName event)); simpl;
    [reflexivity |].
  destruct (Bridge.required_every r _); reflexivity.
Qed.

Lemma getUserInfo_outcome c event tr :
  outcome (Bridge.getUserInfo c event) tr = inr (resolved_user c event).
Proof.
  rewrite (writes_only_outcome _ tr (getUserInfo_writes_only c event)).
  unfold resolved_user, Bridge.getUserInfo, outcome, try_catch, bind, lift,
    console_log, console_error, emit, ret.
  destruct (negb (truthy (Bridge.bearerToken event))); simpl; [reflexivity |].
  destruct (Bridge.getUser c _); reflexivity.
Qed.

(** The user the handler resolves: the Cognito user of the token, or [{}]. *)
Lemma resolved_user_unfold c event :
  resolved_user c event =
  if truthy (Bridge.bearerToken event) then
    match Bridge.getUser c (to_str (Bridge.bearerToken event)) with
    | inr name => Bridge.UserObject (Some name)
    | inl _ => Bridge.UserObject None
    end
  else Bridge.UserObject None.
Proof.
  unfold resolved_user, Bridge.getUserInfo, outcome, try_catch, bind, lift,
    console_log, console_error, emit, ret.
  destruct (truthy (Bridge.bearerToken event)); simpl; [| reflexivity].
  destruct (Bridge.getUser c _); reflexivity.
Qed.

(** What [forwardRequestToHealthLake] returns. *)
Lemma forwardRequestToHealthLake_outcome h env event userInfo tr :
  outcome (Bridge.forwardRequestToHealthLake h env event userInfo) tr =
  inr (if missing_field event
       then Bridge.ErrorResponse 400 "invalid_request"
              "Missing datastoreEndpoint or bearerToken"
       else if truthy (Bridge.HEALTHLAKE_ROLE_ARN env)
       then Bridge.Forwarded
              {| Bridge.iss := to_str (or_else (Bridge.OAUTH2_SERVER_URL env)
                                 (Some "https://main-oauth2-server-link.com/oauth2/token"));
                 Bridge.aud := to_str (Bridge.datastoreEndpoint event);
                 Bridge.iat := (Bridge.Date_now h / 1000)%Z;
                 Bridge.nbf := (Bridge.Date_now h / 1000)%Z;
                 Bridge.exp := (Bridge.Date_now h / 1000 + 3600)%Z;
                 Bridge.isAuthorized := true;
                 Bridge.scope := "system/*.*";
                 Bridge.sub := to_str (or_else (Bridge.Username userInfo)
                                               (Some "anonymous")) |}
              (to_str (Bridge.HEALTHLAKE_ROLE_ARN env))
       else Bridge.ErrorResponse 500 "server_error"
              "HealthLake IAM role configuration is missing").
Proof.
  unfold missing_field, Bridge.forwardRequestToHealthLake, outcome, try_catch, bind,
    console_log, console_error, emit, ret.
  destruct (truthy (Bridge.datastoreEndpoint event)),
    (truthy (Bridge.bearerToken event)); simpl; try reflexivity.
  destruct (truthy (Bridge.HEALTHLAKE_ROLE_ARN env)); reflexivity.
Qed.

(** What the operation switch returns. *)
Lemma dispatch_outcome h env event userInfo name tr :
  outcome (Bridge.dispatch h env event userInfo name) tr =
  if supported_operation name
  then outcome (Bridge.forwardRequestToHealthLake h env event
                  (if String.eqb name "SearchAll" then Bridge.os_userInfo else userInfo))
               []
  else inr (Bridge.ErrorResponse 400 "unsupported_operation"
              ("Operation " ++ name ++ " is not supported")).
Proof.
  unfold Bridge.dispatch, supported_operation, array_includes, existsb,
    Bridge.handleCreateResource, Bridge.handleDeleteResource,
    Bridge.handleReadResource, Bridge.handleSearchAll, Bridge.handleSearchWithGet,
    Bridge.handleSearchWithPost, Bridge.handleStartFHIRExportJobWithPost,
    Bridge.handleUpdateResource.
  rewrite !(String.eqb_sym name).
  repeat match goal with
         | |- context [String.eqb ?lit name] =>
             destruct (String.eqb_spec lit name) as [<- | ?];
             [ rewrite !forwardRequestToHealthLake_outcome; reflexivity |]
         end.
  reflexivity.
Qed.

(** The handler's response, in terms of the check and the switch. *)
Lemma handler_outcome h c env event tr :
  outcome (Bridge.handler h c env event) tr =
  if decision h c event (resolved_user c event) then
    if truthy (Bridge.operationName event)
    then outcome (Bridge.dispatch h env event (resolved_user c event)
                    (to_str (Bridge.operationName event))) []
    else inr (Bridge.ErrorResponse 400 "invalid_request"
                "No valid operationName provided")
  else inr Bridge.access_denied.
Proof.
  unfold Bridge.handler, console_log.
  rewrite outcome_emit_bind, outcome_try_catch.
  - rewrite outcome_bind by apply getUserInfo_writes_only.
    rewrite getUserInfo_outcome.
    rewrite outcome_bind by apply checkUserPermissions_writes_only.
    rewrite checkUserPermissions_outcome.
    destruct (decision h c event (resolved_user c event)); simpl; [| reflexivity].
    destruct (truthy (Bridge.operationName event)); [| reflexivity].
    rewrite outcome_emit_bind.
    rewrite (writes_only_outcome _ _ (dispatch_writes_only _ _ _ _ _)).
    rewrite dispatch_outcome.
    destruct (supported_operation _); [| reflexivity].
    now rewrite forwardRequestToHealthLake_outcome.
  - bridge_writer.
Qed.

(** ** The minted assertion *)

(** C6: every successful response of the bridge carries an assertion with
    [exp - iat = 3600] exactly and [nbf = iat]. *)
Theorem C6_assertion_lifetime h c env event tr payload role :
  outcome (Bridge.handler h c env event) tr = inr (Bridge.Forwarded payload role) ->
  (Bridge.exp payload - Bridge.iat payload = 3600)%Z
  /\ Bridge.nbf payload = Bridge.iat payload.
Proof.
  rewrite handler_outcome.
  destruct (decision h c event (resolved_user c event)); [| discriminate].
  destruct (truthy (Bridge.operationName event)); [| discriminate].
  rewrite dispatch_outcome.
  destruct (supported_operation _); [| discriminate].
  rewrite forwardRequestToHealthLake_outcome.
  destruct (missing_field event); [discriminate |].
  destruct (truthy (Bridge.HEALTHLAKE_ROLE_ARN env)); [| discriminate].
  intros H. injection H as <- _. simpl. split; [lia | reflexivity].
Qed.

Lemma C6_assertion_lifetime_witness :
  outcome (Bridge.handler Sample.host Sample.cognito Sample.env Sample.search_by_name) []
  = inr (Bridge.Forwarded Sample.search_by_name_payload
           Sample.role_arn)
  /\ ((Bridge.exp Sample.search_by_name_payload - Bridge.iat Sample.search_by_name_payload = 3600)%Z
      /\ Bridge.nbf Sample.search_by_name_payload = Bridge.iat Sample.search_by_name_payload).
Proof.
  split.
  - vm_compute. reflexivity.
  - apply (C6_assertion_lifetime Sample.host Sample.cognito Sample.env Sample.search_by_name []
             Sample.search_by_name_payload Sample.role_arn).
    vm_compute. reflexivity.
Defined.

(** C10: a [SearchAll] request that passes the permission check with both
    fields present is answered with an assertion whose [sub] is
    ["anonymous"], whoever authenticated: [handleSearchAll] hands the
    module-level [userInfo] of ['os'] to the minting function.  The assertion
    is minted whenever the execution role is configured, and no other
    assertion can come out of such a request. *)
Theorem C10_search_all_subject_is_anonymous h c env event tr :
  Bridge.operationName event = Some "SearchAll" ->
  decision h c event (resolved_user c event) = true ->
  truthy (Bridge.bearerToken event) = true ->
  truthy (Bridge.datastoreEndpoint event) = true ->
  (truthy (Bridge.HEALTHLAKE_ROLE_ARN env) = true ->
   exists payload role,
     outcome (Bridge.handler h c env event) tr = inr (Bridge.Forwarded payload role)
     /\ Bridge.sub payload = "anonymous")
  /\ (forall payload role,
        outcome (Bridge.handler h c env event) tr = inr (Bridge.Forwarded payload role) ->
        Bridge.sub payload = "anonymous").
Proof.
  intros Hop Hd Hb He.
  assert (Hout : outcome (Bridge.handler h c env event) tr
                 = outcome (Bridge.forwardRequestToHealthLake h env event
                              Bridge.os_userInfo) []).
  { rewrite handler_outcome, Hd, Hop. simpl truthy. cbv iota.
    rewrite dispatch_outcome. reflexivity. }
  rewrite Hout, forwardRequestToHealthLake_outcome.
  unfold missing_field. rewrite Hb, He. simpl negb. simpl orb. cbv iota.
  split.
  - intros Hrole. rewrite Hrole. eexists. eexists. split; reflexivity.
  - intros payload role.
    destruct (truthy (Bridge.HEALTHLAKE_ROLE_ARN env)); [| discriminate].
    intros H. injection H as <- _. reflexivity.
Qed.

Lemma C10_search_all_subject_is_anonymous_witness :
  (Bridge.operationName Sample.search_all = Some "SearchAll"
   /\ decision Sample.host Sample.cognito Sample.search_all
        (resolved_user Sample.cognito Sample.search_all) = true
   /\ truthy (Bridge.bearerToken Sample.search_all) = true
   /\ truthy (Bridge.datastoreEndpoint Sample.search_all) = true
   /\ truthy (Bridge.HEALTHLAKE_ROLE_ARN Sample.env) = true)
  /\ exists payload role,
       outcome (Bridge.handler Sample.host Sample.cognito Sample.env Sample.search_all) []
       = inr (Bridge.Forwarded payload role)
       /\ Bridge.sub payload = "anonymous".
Proof.
  split.
  - repeat split; vm_compute; reflexivity.
  - apply (C10_search_all_subject_is_anonymous Sample.host Sample.cognito Sample.env
             Sample.search_all []);
      vm_compute; reflexivity.
Defined.

(** ** Incomplete input *)

(** The permission check starts with the group lookup, and the handler runs
    the check on every request, before it looks at any field. *)
Lemma checkUserPermissions_events h c event userInfo :
  exists rest,
    events (Bridge.checkUserPermissions h c event userInfo)
    = CognitoAdminListGroupsForUser (Bridge.Username userInfo) :: rest.
Proof.
  unfold Bridge.checkUserPermissions.
  rewrite events_try_catch.
  - rewrite events_bind.
    + eexists. reflexivity.
    + apply writes_only_emit.
    + intros _. unfold console_log. writer.
  - unfold console_log. writer.
  - intros e. unfold console_error. writer.
Qed.

Lemma handler_runs_group_lookup h c env event :
  existsb is_group_lookup (events (Bridge.handler h c env event)) = true.
Proof.
  unfold Bridge.handler.
  rewrite events_bind by bridge_writer. cbn [outcome console_log emit snd].
  rewrite events_try_catch by bridge_writer.
  rewrite events_bind by bridge_writer.
  rewrite getUserInfo_outcome.
  rewrite events_bind by bridge_writer.
  destruct (checkUserPermissions_events h c event (resolved_user c event)) as [rest ->].
  rewrite !existsb_app. simpl. now rewrite !orb_true_r.
Qed.

(** C3, as stated, fails: a request without [datastoreEndpoint] from patient
    P1 is answered 403 [access_denied], and the group lookup of the
    permission check has run by then. *)
Lemma C3_counterexample :
  ~ spec_invalid_request_first Sample.host Sample.cognito Sample.env Sample.no_endpoint.
Proof.
  intros H. destruct (H eq_refl) as [H400 _]. vm_compute in H400. discriminate.
Qed.

(** C3, amended: with [bearerToken] or [datastoreEndpoint] missing the
    handler never forwards.  The permission check is evaluated first (its
    group lookup is among the events of the run) and its denial is answered
    403 [access_denied]; when it passes, the answer is 400 [invalid_request]
    for a supported or an absent operation name and 400
    [unsupported_operation] for any other. *)
Theorem C3_missing_field_response h c env event tr :
  missing_field event = true ->
  existsb is_group_lookup (events (Bridge.handler h c env event)) = true
  /\ outcome (Bridge.handler h c env event) tr =
     inr (if decision h c event (resolved_user c event) then
            if truthy (Bridge.operationName event) then
              if supported_operation (to_str (Bridge.operationName event))
              then Bridge.ErrorResponse 400 "invalid_request"
                     "Missing datastoreEndpoint or bearerToken"
              else Bridge.ErrorResponse 400 "unsupported_operation"
                     ("Operation " ++ to_str (Bridge.operationName event)
                      ++ " is not supported")
            else Bridge.ErrorResponse 400 "invalid_request"
                   "No valid operationName provided"
          else Bridge.access_denied).
Proof.
  intros Hmiss. split; [apply handler_runs_group_lookup |].
  rewrite handler_outcome.
  destruct (decision h c event (resolved_user c event)); [| reflexivity].
  destruct (truthy (Bridge.operationName event)); [| reflexivity].
  rewrite dispatch_outcome.
  destruct (supported_operation _); [| reflexivity].
  now rewrite forwardRequestToHealthLake_outcome, Hmiss.
Qed.

Lemma C3_missing_field_response_witness :
  missing_field Sample.no_endpoint = true
  /\ outcome (Bridge.handler Sample.host Sample.cognito Sample.env Sample.no_endpoint) []
     = inr Bridge.access_denied.
Proof.
  split.
  - reflexivity.
  - rewrite (proj2 (C3_missing_field_response Sample.host Sample.cognito Sample.env
                      Sample.no_endpoint [] eq_refl)).
    vm_compute. reflexivity.
Defined.

(** ** The decision depends on the groups, the request and the user only *)






(** ** Allowed actions *)

Lemma allowedActions_step_error userId e names :
  fold_left (allowedActions_step userId) names (inl e) = inl e.
Proof. induction names as [| g rest IH]; simpl; [reflexivity | exact IH]. Qed.

Lemma allowedActions_from userId names acc :
  forallb (spreads userId) names = true ->
  fold_left (allowedActions_step userId) names (inr acc)
  = inr (acc ++ flat_map (own_actions userId) names)%list.
Proof.
  revert acc. induction names as [| g rest IH]; intros acc Hall; simpl.
  - now rewrite app_nil_r.
  - simpl in Hall. apply andb_true_iff in Hall as [Hg Hrest].
    unfold spreads, object_get in Hg. unfold own_actions at 1, object_get.
    destruct (own_get (policies userId) g) as [actions |].
    + rewrite (IH _ Hrest). now rewrite app_assoc.
    + destruct (array_includes g Object_prototype_names); [discriminate |].
      rewrite (IH _ Hrest). now rewrite app_assoc.
Qed.

(** Groups whose names all spread contribute their own entries, in order. *)
Lemma allowedActions_spreads userId names :
  forallb (spreads userId) names = true ->
  allowedActions userId names = inr (flat_map (own_actions userId) names).
Proof. intros Hall. unfold allowedActions. now rewrite allowedActions_from. Qed.

(** One group name that reaches [Object.prototype] makes the [reduce] throw. *)
Lemma allowedActions_collision userId names :
  forallb (spreads userId) names = false ->
  exists e, allowedActions userId names = inl e.
Proof.
  unfold allowedActions. generalize (@nil string) as acc.
  induction names as [| g rest IH]; intros acc Hall; simpl in *.
  - discriminate.
  - unfold spreads, object_get in Hall. unfold object_get.
    destruct (own_get (policies userId) g) as [actions |].
    + now apply IH.
    + destruct (array_includes g Object_prototype_names).
      * eexists. apply allowedActions_step_error.
      * now apply IH.
Qed.

Lemma array_includes_In x l : array_includes x l = true <-> In x l.
Proof.
  unfold array_includes. rewrite existsb_exists. split.
  - intros [y [Hy Heq]]. apply String.eqb_eq in Heq. now subst.
  - intros Hx. exists x. split; [exact Hx | apply String.eqb_refl].
Qed.

(** X20: an administrator, none of whose group names reaches
    [Object.prototype], passes the check for every request: the wildcard is
    found before the endpoint is looked at. *)
Lemma administrators_authorized h c event userInfo names :
  Bridge.adminListGroupsForUser c (Bridge.Username userInfo) = inr names ->
  forallb (spreads (Bridge.Username userInfo)) names = true ->
  In "Administrators" names ->
  decision h c event userInfo = true.
Proof.
  intros Hnames Hspread Hadmin.
  rewrite decision_unfold, Hnames, (allowedActions_spreads _ _ Hspread).
  replace (array_includes "*" _) with true; [reflexivity |].
  symmetry. apply array_includes_In, in_flat_map.
  exists "Administrators". split; [exact Hadmin | now left].
Qed.

(** C4, on the code: an administrator who is also a member of a group named
    [constructor] is denied.  [policies['constructor']] is the inherited
    [Object] function, the spread throws, and the [catch] answers [false]. *)
Theorem C4_administrator_in_colliding_group_denied :
  Bridge.adminListGroupsForUser Sample.cognito (Some "ops")
  = inr ["constructor"; "Administrators"]
  /\ allowedActions (Some "ops") ["constructor"; "Administrators"]
     = inl (TypeError "(policies[group] || []) is not iterable")
  /\ decision Sample.host Sample.cognito Sample.read_as_ops
       (resolved_user Sample.cognito Sample.read_as_ops) = false
  /\ outcome (Bridge.handler Sample.host Sample.cognito Sample.env Sample.read_as_ops) []
     = inr Bridge.access_denied.
Proof. repeat split; vm_compute; reflexivity. Qed.

(** ** Resource types and scoped entries *)

(** X21: a request whose endpoint path ends in a segment that is no key of
    the permission table (and no member of [Object.prototype]) is denied
    unless the user holds the wildcard: reading [operationName] off
    [undefined] throws. *)
Lemma unlisted_last_segment_denied h c event userInfo names allowed url :
  Bridge.adminListGroupsForUser c (Bridge.Username userInfo) = inr names ->
  allowedActions (Bridge.Username userInfo) names = inr allowed ->
  array_includes "*" allowed = false ->
  Bridge.new_URL h (to_str (Bridge.datastoreEndpoint event)) = Some url ->
  object_get Bridge.resourceOperationPermissionsMap
    (to_str (pop (split "/" (Bridge.pathname url)))) = Undefined ->
  decision h c event userInfo = false.
Proof.
  intros Hnames Hallowed Hwild Hurl Hseg.
  rewrite decision_unfold, Hnames, Hallowed, Hwild.
  unfold Bridge.URL_of. rewrite Hurl.
  unfold Bridge.requiredPermissions. now rewrite Hseg.
Qed.

(** C1, on the code: patient P1 reading [.../Patient/P1] is denied, as is the
    read of [.../Patient/P2].  The resource type is taken from the last path
    segment, which is the record id here, so the lookup in the permission
    table throws before the scoped entry is compared with the path. *)
Theorem C1_patient_read_of_own_record_denied :
  Bridge.adminListGroupsForUser Sample.cognito (Some "P1") = inr ["Patients"]
  /\ pop (split "/" "/datastore/ds1/r4/Patient/P1") = Some "P1"
  /\ decision Sample.host Sample.cognito Sample.read_own
       (resolved_user Sample.cognito Sample.read_own) = false
  /\ outcome (Bridge.handler Sample.host Sample.cognito Sample.env Sample.read_own) []
     = inr Bridge.access_denied
  /\ outcome (Bridge.handler Sample.host Sample.cognito Sample.env Sample.read_other) []
     = inr Bridge.access_denied.
Proof. repeat split; vm_compute; reflexivity. Qed.

(** Under [SearchWithGet] a scoped entry in the matched list makes the loop
    throw, whatever the query of the request holds. *)
Lemma scope_loop_search_with_get h event matched :
  strict_eq (Bridge.operationName event) "SearchWithGet" = true ->
  existsb is_scoped matched = true ->
  exists e, Bridge.scope_loop h event matched = inl e.
Proof.
  intros Hop. induction matched as [| action rest IH]; simpl; intros Hsome.
  - discriminate.
  - unfold is_scoped in Hsome at 1.
    destruct (includes "?" action); simpl in Hsome.
    + rewrite Hop. destruct (Bridge.URL_of h (Bridge.datastoreEndpoint event)); simpl;
        eexists; reflexivity.
    + now apply IH.
Qed.

(** C7, on the code: patient P1 searching [.../Patient?patient=P1] is denied
    although the parameter [patient] named by the scoped entry is present in
    the query.  The call [queryParams.every] throws; and the callback written
    for it would reject the own id and accept a foreign one. *)
Theorem C7_scoped_search_denied :
  Bridge.allowedActionsPermissionMatch
    ["Patient.read?patient=P1"; "Observation.read?subject=P1"] "Patient.read"
  = ["Patient.read?patient=P1"]
  /\ Bridge.params_has Sample.host (Some "?patient=P1") "patient" = true
  /\ Bridge.scope_loop Sample.host Sample.search_own ["Patient.read?patient=P1"]
     = inl (TypeError "queryParams.every is not a function")
  /\ outcome (Bridge.handler Sample.host Sample.cognito Sample.env Sample.search_own) []
     = inr Bridge.access_denied
  /\ Bridge.queryParamsMatch_callback Sample.host (Some "?patient=P1") "P1" "patient"
     = false
  /\ Bridge.queryParamsMatch_callback Sample.host (Some "?patient=P2") "P1" "patient"
     = true.
Proof. repeat split; vm_compute; reflexivity. Qed.

(** ** The matching rule *)


(** Outside [SearchWithGet] the loop passes exactly when every scoped entry
    of the matched list passes the scope test. *)
Lemma scope_loop_value h event url matched :
  Bridge.new_URL h (to_str (Bridge.datastoreEndpoint event)) = Some url ->
  strict_eq (Bridge.operationName event) "SearchWithGet" = false ->
  Bridge.scope_loop h event matched
  = inr (forallb (fun action => implb (is_scoped action) (scope_holds h event url action))
                 matched).
Proof.
  intros Hurl Hop. induction matched as [| action rest IH]; simpl.
  - reflexivity.
  - unfold is_scoped at 1, scope_holds at 1.
    destruct (includes "?" action); simpl; [| exact IH].
    rewrite Hop.
    destruct (strict_eq (Bridge.operationName event) "UpdateResource"
              || strict_eq (Bridge.operationName event) "DeleteResource"
              || strict_eq (Bridge.operationName event) "ReadResource"); [| exact IH].
    unfold Bridge.URL_of. rewrite Hurl. simpl.
    destruct (Bridge.endpointPathMatch h url _); simpl; [exact IH | reflexivity].
Qed.

Lemma filter_length_existsb {A : Type} (f : A -> bool) l :
  Nat.eqb (List.length (filter f l)) 0 = negb (existsb f l).
Proof.
  induction l as [| x rest IH]; simpl; [reflexivity |].
  destruct (f x); simpl; [reflexivity | exact IH].
Qed.

Lemma forallb_filter {A : Type} (f g : A -> bool) l :
  forallb g (filter f l) = forallb (fun x => implb (f x) (g x)) l.
Proof.
  induction l as [| x rest IH]; simpl; [reflexivity |].
  destruct (f x); simpl; now rewrite IH.
Qed.

Lemma forallb_pointwise {A : Type} (f g : A -> bool) l :
  (forall x, f x = g x) -> forallb f l = forallb g l.
Proof.
  intros Hfg. induction l as [| x rest IH]; simpl; [reflexivity |].
  now rewrite Hfg, IH.
Qed.

Lemma permission_callback_value h event url allowed permission :
  Bridge.new_URL h (to_str (Bridge.datastoreEndpoint event)) = Some url ->
  strict_eq (Bridge.operationName event) "SearchWithGet" = false ->
  Bridge.permission_callback h event allowed permission
  = inr (code_satisfied (scope_holds h event url) allowed permission).
Proof.
  intros Hurl Hop.
  unfold Bridge.permission_callback, Bridge.allowedActionsPermissionMatch, code_satisfied.
  rewrite filter_length_existsb.
  destruct (existsb (Bridge.action_matches permission) allowed); simpl; [| reflexivity].
  rewrite (scope_loop_value h event url _ Hurl Hop), forallb_filter.
  f_equal. apply forallb_pointwise. intros action.
  destruct (Bridge.action_matches permission action), (is_scoped action); reflexivity.
Qed.






(** ** The gateway authorizer *)

Lemma getSigningKey_writes_only j kid : writes_only (Authorizer.getSigningKey j kid).
Proof.
  unfold Authorizer.getSigningKey.
  apply writes_only_bind; [apply writes_only_emit | intros _].
  destruct (Authorizer.client_getSigningKey j kid) as [[err |] [key |]]; writer.
Qed.

Lemma handler_try_writes_only j event : writes_only (Authorizer.handler_try j event).
Proof.
  unfold Authorizer.handler_try, console_log, console_error, console_warn.
  apply writes_only_bind; [apply writes_only_emit | intros _].
  apply writes_only_bind; [writer | intros _].
  apply writes_only_bind; [apply writes_only_lift | intros decoded].
  apply writes_only_bind.
  { destruct decoded as [[[head |] [claims |]] |]; writer. }
  intros head.
  apply writes_only_bind; [apply writes_only_emit | intros _].
  apply writes_only_bind; [apply getSigningKey_writes_only | intros key].
  writer.
Qed.

Lemma authorizer_handler_writes_only j event : writes_only (Authorizer.handler j event).
Proof.
  unfold Authorizer.handler.
  apply writes_only_try_catch; [apply handler_try_writes_only |].
  intros err. unfold console_error. writer.
Qed.

(** The handler's response, whatever the [try] block does. *)
Lemma authorizer_handler_outcome j event tr :
  outcome (Authorizer.handler j event) tr =
  match outcome (Authorizer.handler_try j event) [] with
  | inl _ => inr (Authorizer.deny_response event)
  | inr response => inr response
  end.
Proof.
  unfold Authorizer.handler.
  rewrite outcome_try_catch by apply handler_try_writes_only.
  destruct (outcome (Authorizer.handler_try j event) []); reflexivity.
Qed.

(** The [try] block, read off stage by stage. *)
Lemma handler_try_outcome j event :
  outcome (Authorizer.handler_try j event) [] =
  if truthy (Authorizer.authorizationToken event) then
    match Authorizer.decode j (token_of event) with
    | inl e => inl e
    | inr decoded =>
        match decoded_head decoded with
        | None => inl (ErrorObject "Invalid token format")
        | Some head =>
            match Authorizer.client_getSigningKey j (Authorizer.kid head) with
            | (Some err, _) => inl err
            | (None, None) => inl (Rejection "Key not found")
            | (None, Some key) =>
                match Authorizer.verify j (token_of event) key with
                | inl e => inl e
                | inr claims =>
                    match allowedActions (Authorizer.sub claims)
                            (groups_of_claims claims) with
                    | inl e => inl e
                    | inr allowed =>
                        inr (Authorizer.allow_response event (Authorizer.sub claims)
                               (or_else (or_else (Authorizer.email claims)
                                           (Authorizer.preferred_username claims))
                                        (Authorizer.sub claims))
                               (groups_of_claims claims) allowed)
                    end
                end
            end
        end
    end
  else inl (ErrorObject "Unauthorized").
Proof.
  unfold Authorizer.handler_try, Authorizer.getSigningKey, token_of, groups_of_claims,
    outcome, bind, lift, throw, console_log, console_error, console_warn, emit, ret.
  destruct (truthy (Authorizer.authorizationToken event)); simpl; [| reflexivity].
  destruct (Authorizer.decode j _) as [e | decoded]; simpl; [reflexivity |].
  destruct decoded as [[[head |] [claims |]] |]; simpl; try reflexivity.
  destruct (Authorizer.client_getSigningKey j (Authorizer.kid head)) as [[err |] [key |]];
    simpl; try reflexivity.
  destruct (Authorizer.verify j _ key) as [e | verifiedToken]; simpl; [reflexivity |].
  destruct (allowedActions _ _) as [e | allowed]; simpl; [reflexivity |].
  destruct (Nat.eqb (List.length allowed) 0); reflexivity.
Qed.

Lemma stage_failure_throws j event :
  stage_failure j event ->
  exists e, outcome (Authorizer.handler_try j event) [] = inl e.
Proof.
  intros Hfail. rewrite handler_try_outcome.
  destruct Hfail as
    [ Htok | e Htok Hdec | decoded Htok Hdec Hhead | decoded head Htok Hdec Hhead Hkey
    | decoded head key e Htok Hdec Hhead Hkey Hver
    | decoded head key claims e Htok Hdec Hhead Hkey Hver Hext ];
    rewrite Htok; try rewrite Hdec; try rewrite Hhead.
  - eexists; reflexivity.
  - eexists; reflexivity.
  - eexists; reflexivity.
  - unfold resolved_key in Hkey.
    destruct (Authorizer.client_getSigningKey j (Authorizer.kid head)) as [[err |] [k |]];
      try discriminate; eexists; reflexivity.
  - unfold resolved_key in Hkey.
    destruct (Authorizer.client_getSigningKey j (Authorizer.kid head)) as [[err |] [k |]];
      try discriminate.
    injection Hkey as ->. rewrite Hver. eexists; reflexivity.
  - unfold resolved_key in Hkey.
    destruct (Authorizer.client_getSigningKey j (Authorizer.kid head)) as [[err |] [k |]];
      try discriminate.
    injection Hkey as ->. rewrite Hver, Hext. eexists; reflexivity.
Qed.

(** C5: the authorizer always returns a response, never an exception; when
    the [try] block throws, and in particular when any of its stages fails
    (token presence, decoding, key resolution, verification, claim
    extraction), the response is the Deny document: one statement, effect
    [Deny], on the [methodArn] of the request. *)
Theorem C5_authorizer_fails_closed j event tr :
  (exists response, outcome (Authorizer.handler j event) tr = inr response)
  /\ ((stage_failure j event
       \/ exists e, outcome (Authorizer.handler_try j event) tr = inl e) ->
      outcome (Authorizer.handler j event) tr = inr (Authorizer.deny_response event)
      /\ Authorizer.Statement (Authorizer.policyDocument (Authorizer.deny_response event))
         = [ {| Authorizer.Action := "execute-api:Invoke";
                Authorizer.Effect := Authorizer.Deny;
                Authorizer.Resource := Authorizer.methodArn event |} ]).
Proof.
  split.
  - rewrite authorizer_handler_outcome.
    destruct (outcome (Authorizer.handler_try j event) []); eexists; reflexivity.
  - intros Hthrow.
    assert (Hempty : exists e, outcome (Authorizer.handler_try j event) [] = inl e).
    { destruct Hthrow as [Hfail | [e He]].
      - now apply stage_failure_throws.
      - exists e.
        now rewrite <- (writes_only_outcome _ tr (handler_try_writes_only j event)). }
    destruct Hempty as [e He].
    rewrite authorizer_handler_outcome, He. split; reflexivity.
Qed.

Lemma C5_authorizer_fails_closed_witness :
  stage_failure Sample.jwt Sample.expired_call
  /\ outcome (Authorizer.handler Sample.jwt Sample.expired_call) []
     = inr (Authorizer.deny_response Sample.expired_call).
Proof.
  assert (Hfail : stage_failure Sample.jwt Sample.expired_call).
  { apply (verification_throws Sample.jwt Sample.expired_call
             (Some {| Authorizer.header := Some {| Authorizer.kid := Some "key-1" |};
                      Authorizer.payload :=
                        Some (Sample.claims_of "P1" (Some ["Patients"])) |})
             {| Authorizer.kid := Some "key-1" |} "public-key-1"
             (ErrorObject "jwt expired"));
      vm_compute; reflexivity. }
  split.
  - exact Hfail.
  - apply (proj2 (C5_authorizer_fails_closed Sample.jwt Sample.expired_call [])).
    left. exact Hfail.
Defined.

(** A verified token whose group names all spread is allowed, on the
    [methodArn] of the request: also when the groups claim is absent and when
    no group has an entry in [policies]. *)
Lemma verified_token_allowed j event claims tr :
  verified j event claims ->
  forallb (spreads (Authorizer.sub claims)) (groups_of_claims claims) = true ->
  exists response,
    outcome (Authorizer.handler j event) tr = inr response
    /\ Authorizer.Statement (Authorizer.policyDocument response)
       = [ {| Authorizer.Action := "execute-api:Invoke";
              Authorizer.Effect := Authorizer.Allow;
              Authorizer.Resource := Authorizer.methodArn event |} ].
Proof.
  intros [Htok [decoded [head [key [Hdec [Hhead [Hkey Hver]]]]]]] Hspread.
  rewrite authorizer_handler_outcome, handler_try_outcome, Htok, Hdec, Hhead.
  unfold resolved_key in Hkey.
  destruct (Authorizer.client_getSigningKey j (Authorizer.kid head)) as [[err |] [k |]];
    try discriminate.
  injection Hkey as ->.
  rewrite Hver, (allowedActions_spreads _ _ Hspread).
  eexists. split; reflexivity.
Qed.

(** C9, on the code: a token that passes signature and temporal verification
    and carries the group [constructor] is denied.  The scopes are computed
    from [policies] before the response is built, and the spread of the
    inherited [Object] function throws into the [catch]. *)
Theorem C9_verified_token_in_colliding_group_denied :
  verified Sample.jwt Sample.odd_call (Sample.claims_of "ops" (Some ["constructor"]))
  /\ outcome (Authorizer.handler_try Sample.jwt Sample.odd_call) []
     = inl (TypeError "(policies[group] || []) is not iterable")
  /\ outcome (Authorizer.handler Sample.jwt Sample.odd_call) []
     = inr (Authorizer.deny_response Sample.odd_call)
  /\ Authorizer.effect_of (Authorizer.deny_response Sample.odd_call)
     = Some Authorizer.Deny.
Proof.
  split; [| repeat split; vm_compute; reflexivity].
  split; [reflexivity |].
  exists (Some {| Authorizer.header := Some {| Authorizer.kid := Some "key-1" |};
                  Authorizer.payload :=
                    Some (Sample.claims_of "ops" (Some ["constructor"])) |}),
         {| Authorizer.kid := Some "key-1" |}, "public-key-1".
  repeat split; vm_compute; reflexivity.
Qed.

(** * Further properties of the identity-provider Lambda *)

(** The response of the handler, case by case. *)
Lemma handler_response h c env event tr :
  outcome (Bridge.handler h c env event) tr =
  inr (if negb (decision h c event (resolved_user c event)) then Bridge.access_denied
       else if negb (truthy (Bridge.operationName event)) then
         Bridge.ErrorResponse 400 "invalid_request" "No valid operationName provided"
       else if negb (supported_operation (to_str (Bridge.operationName event))) then
         Bridge.ErrorResponse 400 "unsupported_operation"
           ("Operation " ++ to_str (Bridge.operationName event) ++ " is not supported")
       else if missing_field event then
         Bridge.ErrorResponse 400 "invalid_request"
           "Missing datastoreEndpoint or bearerToken"
       else if negb (truthy (Bridge.HEALTHLAKE_ROLE_ARN env)) then
         Bridge.ErrorResponse 500 "server_error"
           "HealthLake IAM role configuration is missing"
       else assertion h env event
              (forwarded_user (to_str (Bridge.operationName event))
                 (resolved_user c event))).
Proof.
  rewrite handler_outcome.
  destruct (decision h c event (resolved_user c event)); [| reflexivity].
  destruct (truthy (Bridge.operationName event)); [| reflexivity].
  rewrite dispatch_outcome.
  destruct (supported_operation _); [| reflexivity].
  rewrite forwardRequestToHealthLake_outcome.
  destruct (missing_field event); [reflexivity |].
  destruct (truthy (Bridge.HEALTHLAKE_ROLE_ARN env)); reflexivity.
Qed.

(** X1: the handler answers by a fixed precedence.  A denied check gives 403
    [access_denied]; then an absent operation name gives 400
    [invalid_request], an unsupported one 400 [unsupported_operation], a
    missing [datastoreEndpoint] or [bearerToken] 400 [invalid_request], a
    missing role configuration 500 [server_error]; otherwise the assertion is
    returned.  No other response exists: the two generic [catch] responses
    (500 "An internal server error occurred", 500 "An error occurred while
    processing the request") are never produced and the handler never throws. *)
Theorem bridge_response_table h c env event tr :
  outcome (Bridge.handler h c env event) tr =
  inr (if negb (decision h c event (resolved_user c event)) then Bridge.access_denied
       else if negb (truthy (Bridge.operationName event)) then
         Bridge.ErrorResponse 400 "invalid_request" "No valid operationName provided"
       else if negb (supported_operation (to_str (Bridge.operationName event))) then
         Bridge.ErrorResponse 400 "unsupported_operation"
           ("Operation " ++ to_str (Bridge.operationName event) ++ " is not supported")
       else if missing_field event then
         Bridge.ErrorResponse 400 "invalid_request"
           "Missing datastoreEndpoint or bearerToken"
       else if negb (truthy (Bridge.HEALTHLAKE_ROLE_ARN env)) then
         Bridge.ErrorResponse 500 "server_error"
           "HealthLake IAM role configuration is missing"
       else assertion h env event
              (forwarded_user (to_str (Bridge.operationName event))
                 (resolved_user c event))).
Proof. apply handler_response. Qed.

(** X2: an assertion is returned exactly when the permission check passed,
    the operation is one of the eight supported ones, both fields are present
    and the execution role is configured. *)
Theorem bridge_forwards_iff h c env event tr :
  (exists payload role,
     outcome (Bridge.handler h c env event) tr = inr (Bridge.Forwarded payload role))
  <-> (decision h c event (resolved_user c event) = true
       /\ truthy (Bridge.operationName event) = true
       /\ supported_operation (to_str (Bridge.operationName event)) = true
       /\ missing_field event = false
       /\ truthy (Bridge.HEALTHLAKE_ROLE_ARN env) = true).
Proof.
  rewrite handler_response.
  destruct (decision h c event (resolved_user c event));
    [| split; [intros [p [r H]]; discriminate | intros [H _]; discriminate]].
  destruct (truthy (Bridge.operationName event));
    [| split; [intros [p [r H]]; discriminate | intros [_ [H _]]; discriminate]].
  destruct (supported_operation _);
    [| split; [intros [p [r H]]; discriminate | intros [_ [_ [H _]]]; discriminate]].
  destruct (missing_field event);
    [split; [intros [p [r H]]; discriminate | intros [_ [_ [_ [H _]]]]; discriminate] |].
  destruct (truthy (Bridge.HEALTHLAKE_ROLE_ARN env));
    [| split; [intros [p [r H]]; discriminate | intros [_ [_ [_ [_ H]]]]; discriminate]].
  split; [intros _; repeat split | intros _; eexists; eexists; reflexivity].
Qed.

(** X3: what an assertion holds.  Whenever the handler returns one, [aud] is
    the [datastoreEndpoint] of the request, [iamRoleARN] is
    [HEALTHLAKE_ROLE_ARN], [scope] is [system/*.*] and [isAuthorized] is
    [true]; [iss] is [OAUTH2_SERVER_URL] when that is set and non-empty and
    the built-in placeholder otherwise. *)
Theorem bridge_assertion_fields h c env event tr payload role :
  outcome (Bridge.handler h c env event) tr = inr (Bridge.Forwarded payload role) ->
  Bridge.aud payload = to_str (Bridge.datastoreEndpoint event)
  /\ role = to_str (Bridge.HEALTHLAKE_ROLE_ARN env)
  /\ Bridge.scope payload = "system/*.*"
  /\ Bridge.isAuthorized payload = true
  /\ Bridge.iss payload =
     (if truthy (Bridge.OAUTH2_SERVER_URL env)
      then to_str (Bridge.OAUTH2_SERVER_URL env)
      else "https://main-oauth2-server-link.com/oauth2/token").
Proof.
  rewrite handler_response.
  destruct (negb (decision h c event (resolved_user c event))); [discriminate |].
  destruct (negb (truthy (Bridge.operationName event))); [discriminate |].
  destruct (negb (supported_operation _)); [discriminate |].
  destruct (missing_field event); [discriminate |].
  destruct (negb (truthy (Bridge.HEALTHLAKE_ROLE_ARN env))); [discriminate |].
  unfold assertion. intros H. injection H as <- <-. simpl.
  repeat split. unfold or_else.
  destruct (truthy (Bridge.OAUTH2_SERVER_URL env)); reflexivity.
Qed.

Lemma bridge_assertion_fields_witness :
  outcome (Bridge.handler Sample.host Sample.cognito Sample.env Sample.search_by_name) []
  = inr (Bridge.Forwarded Sample.search_by_name_payload Sample.role_arn)
  /\ Bridge.aud Sample.search_by_name_payload
     = to_str (Bridge.datastoreEndpoint Sample.search_by_name).
Proof.
  split.
  - vm_compute. reflexivity.
  - apply (bridge_assertion_fields Sample.host Sample.cognito Sample.env
             Sample.search_by_name [] Sample.search_by_name_payload Sample.role_arn).
    vm_compute. reflexivity.
Defined.

(** X4: exceptions inside the permission check fail closed.  When the group
    lookup rejects, when a group name does not spread, or when the endpoint of
    a user without the wildcard does not parse, the handler answers 403
    [access_denied]: never 500, and never 400. *)
Theorem bridge_check_fails_closed h c env event tr :
  (exists e,
     Bridge.adminListGroupsForUser c (Bridge.Username (resolved_user c event)) = inl e)
  \/ (exists names,
        Bridge.adminListGroupsForUser c (Bridge.Username (resolved_user c event))
        = inr names
        /\ (forallb (spreads (Bridge.Username (resolved_user c event))) names = false
            \/ (array_includes "*"
                  (flat_map (own_actions (Bridge.Username (resolved_user c event))) names)
                = false
                /\ Bridge.new_URL h (to_str (Bridge.datastoreEndpoint event)) = None))) ->
  outcome (Bridge.handler h c env event) tr = inr Bridge.access_denied.
Proof.
  intros Hfail. rewrite handler_response.
  replace (decision h c event (resolved_user c event)) with false; [reflexivity |].
  symmetry. rewrite decision_unfold.
  destruct Hfail as [[e ->] | [names [-> [Hcoll | [Hwild Hurl]]]]].
  - reflexivity.
  - destruct (allowedActions_collision _ _ Hcoll) as [e ->]. reflexivity.
  - destruct (forallb (spreads (Bridge.Username (resolved_user c event))) names) eqn:Hs.
    + rewrite (allowedActions_spreads _ _ Hs), Hwild.
      unfold Bridge.URL_of. now rewrite Hurl.
    + destruct (allowedActions_collision _ _ Hs) as [e ->]. reflexivity.
Qed.

Lemma bridge_check_fails_closed_witness :
  outcome (Bridge.handler Sample.host Sample.cognito Sample.env Sample.no_endpoint) []
  = inr Bridge.access_denied.
Proof.
  apply (bridge_check_fails_closed Sample.host Sample.cognito Sample.env
           Sample.no_endpoint []).
  right. exists ["Patients"]. split; [reflexivity |].
  right. split; reflexivity.
Defined.

(** ** What each role may do *)

(** A group name that reaches [Object.prototype] denies every request. *)
Lemma colliding_group_denied h c event userInfo names :
  Bridge.adminListGroupsForUser c (Bridge.Username userInfo) = inr names ->
  forallb (spreads (Bridge.Username userInfo)) names = false ->
  decision h c event userInfo = false.
Proof.
  intros Hnames Hcollides. rewrite decision_unfold, Hnames.
  destruct (allowedActions_collision _ _ Hcollides) as [e ->]. reflexivity.
Qed.

Lemma prefix_empty s : prefix EmptyString s = true.
Proof. destruct s; reflexivity. Qed.

Lemma own_actions_cases userId group :
  own_actions userId group = ["*"] /\ group = "Administrators"
  \/ own_actions userId group
     = ["Patient.read"; "Patient.write"; "Observation.read"; "Observation.write"]
     /\ group = "Practitioners"
  \/ own_actions userId group = [patient_entry userId; observation_entry userId]
     /\ group = "Patients"
  \/ own_actions userId group = [].
Proof.
  unfold own_actions, policies, own_get.
  destruct (String.eqb_spec "Administrators" group) as [<- | _]; [now left |].
  destruct (String.eqb_spec "Practitioners" group) as [<- | _]; [right; now left |].
  destruct (String.eqb_spec "Patients" group) as [<- | _];
    [right; right; now left | now repeat right].
Qed.

Lemma prefix_char c x rest :
  prefix (String c EmptyString) (String x rest) = Ascii.eqb c x.
Proof.
  simpl. destruct (ascii_dec c x) as [-> | Hne].
  - now rewrite prefix_empty, Ascii.eqb_refl.
  - symmetry. now apply Ascii.eqb_neq.
Qed.

Lemma includes_char c x rest :
  includes (String c EmptyString) (String x rest)
  = Ascii.eqb c x || includes (String c EmptyString) rest.
Proof. cbn [includes]. now rewrite prefix_char. Qed.

(** A string that holds the separator splits after its first piece. *)
Lemma split_at_first c a b :
  includes (String c EmptyString) a = false ->
  split c (a ++ String c b) = a :: split c b.
Proof.
  induction a as [| x a IH]; intros Hnone.
  - simpl. now rewrite Ascii.eqb_refl.
  - rewrite includes_char in Hnone. apply orb_false_iff in Hnone as [Hx Ha].
    cbn [append split]. rewrite Ascii.eqb_sym, Hx. now rewrite (IH Ha).
Qed.

(** A string without the separator is its own single piece. *)
Lemma split_without c s :
  includes (String c EmptyString) s = false -> split c s = [s].
Proof.
  induction s as [| x s IH]; intros Hnone.
  - reflexivity.
  - rewrite includes_char in Hnone. apply orb_false_iff in Hnone as [Hx Hs].
    cbn [split]. rewrite Ascii.eqb_sym, Hx. now rewrite (IH Hs).
Qed.

Lemma includes_after c a b :
  includes (String c EmptyString) (a ++ String c b) = true.
Proof.
  induction a as [| x a IH].
  - simpl append. rewrite includes_char, Ascii.eqb_refl. reflexivity.
  - cbn [append]. rewrite includes_char, IH. apply orb_true_r.
Qed.

(** The entries of the [Patients] policy are scoped, with the bases
    [Patient.read] and [Observation.read], whatever the user id is. *)
Lemma patient_entry_scoped userId : is_scoped (patient_entry userId) = true.
Proof.
  unfold is_scoped. apply (includes_after "?" "Patient.read" ("patient=" ++ to_str userId)).
Qed.

Lemma observation_entry_scoped userId : is_scoped (observation_entry userId) = true.
Proof.
  unfold is_scoped.
  apply (includes_after "?" "Observation.read" ("subject=" ++ to_str userId)).
Qed.

Lemma patient_entry_pieces userId :
  split "?" (patient_entry userId)
  = "Patient.read" :: split "?" ("patient=" ++ to_str userId).
Proof.
  apply (split_at_first "?" "Patient.read" ("patient=" ++ to_str userId)). reflexivity.
Qed.

Lemma observation_entry_pieces userId :
  split "?" (observation_entry userId)
  = "Observation.read" :: split "?" ("subject=" ++ to_str userId).
Proof.
  apply (split_at_first "?" "Observation.read" ("subject=" ++ to_str userId)).
  reflexivity.
Qed.

Lemma patient_entry_matches userId permission :
  Bridge.action_matches permission (patient_entry userId)
  = String.eqb "Patient.read" permission.
Proof.
  unfold Bridge.action_matches.
  change (includes "?" (patient_entry userId)) with (is_scoped (patient_entry userId)).
  now rewrite patient_entry_scoped, patient_entry_pieces.
Qed.

Lemma observation_entry_matches userId permission :
  Bridge.action_matches permission (observation_entry userId)
  = String.eqb "Observation.read" permission.
Proof.
  unfold Bridge.action_matches.
  change (includes "?" (observation_entry userId))
    with (is_scoped (observation_entry userId)).
  now rewrite observation_entry_scoped, observation_entry_pieces.
Qed.

Lemma listed_resource_cases seg :
  listed_resource (Some seg) = true -> seg = "Patient" \/ seg = "Observation".
Proof.
  unfold listed_resource, strict_eq. intros H. apply orb_true_iff in H as [H | H];
    apply String.eqb_eq in H; [now left | now right].
Qed.

(** On a listed resource, each supported operation asks for one permission. *)
Lemma requiredPermissions_listed h seg name :
  listed_resource (Some seg) = true ->
  supported_operation name = true ->
  Bridge.requiredPermissions h (Some seg) (Some name)
  = inr (Bridge.RequiredArray [required_permission seg name]).
Proof.
  intros Hseg Hname.
  apply array_includes_In in Hname. simpl in Hname.
  destruct (listed_resource_cases _ Hseg) as [-> | ->];
    repeat (destruct Hname as [<- | Hname]; [reflexivity |]);
    contradiction.
Qed.

Lemma scope_loop_unscoped h event matched :
  forallb (fun action => negb (is_scoped action)) matched = true ->
  Bridge.scope_loop h event matched = inr true.
Proof.
  induction matched as [| action rest IH]; simpl; intros Hall; [reflexivity |].
  apply andb_true_iff in Hall as [Hone Hrest]. unfold is_scoped in Hone.
  destruct (includes "?" action); [discriminate | now apply IH].
Qed.

Lemma scope_loop_untested h event matched :
  strict_eq (Bridge.operationName event) "SearchWithGet" = false ->
  strict_eq (Bridge.operationName event) "UpdateResource"
  || strict_eq (Bridge.operationName event) "DeleteResource"
  || strict_eq (Bridge.operationName event) "ReadResource" = false ->
  Bridge.scope_loop h event matched = inr true.
Proof.
  intros Hget Hrud. induction matched as [| action rest IH]; simpl; [reflexivity |].
  rewrite Hget, Hrud. destruct (includes "?" action); exact IH.
Qed.

(** The decision for a supported operation on a listed resource, for a user
    without the wildcard: the callback on the one required permission. *)
Lemma decision_listed h c event userInfo names url seg name :
  Bridge.adminListGroupsForUser c (Bridge.Username userInfo) = inr names ->
  forallb (spreads (Bridge.Username userInfo)) names = true ->
  array_includes "*" (flat_map (own_actions (Bridge.Username userInfo)) names) = false ->
  Bridge.new_URL h (to_str (Bridge.datastoreEndpoint event)) = Some url ->
  resourcePath_of url = Some seg ->
  listed_resource (Some seg) = true ->
  Bridge.operationName event = Some name ->
  supported_operation name = true ->
  decision h c event userInfo =
  match Bridge.permission_callback h event
          (flat_map (own_actions (Bridge.Username userInfo)) names)
          (required_permission seg name) with
  | inr ok => ok
  | inl _ => false
  end.
Proof.
  intros Hnames Hspread Hwild Hurl Hseg Hlisted Hop Hsup.
  rewrite decision_unfold, Hnames, (allowedActions_spreads _ _ Hspread), Hwild.
  unfold Bridge.URL_of. rewrite Hurl.
  unfold resourcePath_of in Hseg. rewrite Hseg, Hop.
  rewrite (requiredPermissions_listed h seg name Hlisted Hsup).
  cbn [Bridge.required_every Bridge.every].
  destruct (Bridge.permission_callback h event _ _) as [e | [|]]; reflexivity.
Qed.

Lemma wildcard_authorized h c event userInfo names :
  Bridge.adminListGroupsForUser c (Bridge.Username userInfo) = inr names ->
  forallb (spreads (Bridge.Username userInfo)) names = true ->
  array_includes "*" (flat_map (own_actions (Bridge.Username userInfo)) names) = true ->
  decision h c event userInfo = true.
Proof.
  intros Hnames Hspread Hwild.
  now rewrite decision_unfold, Hnames, (allowedActions_spreads _ _ Hspread), Hwild.
Qed.

Lemma own_actions_allowed userId names group action :
  In group names -> In action (own_actions userId group) ->
  In action (flat_map (own_actions userId) names).
Proof. intros Hg Ha. apply in_flat_map. now exists group. Qed.

(** Without [Patients] among the groups no allowed entry is scoped. *)
Lemma allowed_unscoped userId names :
  ~ In "Patients" names ->
  forallb (fun action => negb (is_scoped action))
          (flat_map (own_actions userId) names) = true.
Proof.
  intros Hno. apply forallb_forall. intros action Hin.
  apply in_flat_map in Hin as [group [Hgroup Haction]].
  destruct (own_actions_cases userId group)
    as [[E _] | [[E _] | [[_ ->] | E]]]; try contradiction;
    rewrite E in Haction; simpl in Haction;
    repeat (destruct Haction as [<- | Haction]; [reflexivity |]); contradiction.
Qed.

(** Without [Administrators] and [Practitioners] among the groups every
    allowed entry is one of the two scoped entries of [Patients]. *)
Lemma allowed_patient_entries userId names action :
  ~ In "Administrators" names -> ~ In "Practitioners" names ->
  In action (flat_map (own_actions userId) names) ->
  action = patient_entry userId \/ action = observation_entry userId.
Proof.
  intros Hadmin Hpract Hin.
  apply in_flat_map in Hin as [group [Hgroup Haction]].
  destruct (own_actions_cases userId group)
    as [[_ ->] | [[_ ->] | [[E _] | E]]]; try contradiction;
    rewrite E in Haction; simpl in Haction.
  - destruct Haction as [<- | [<- | []]]; [now left | now right].
  - contradiction.
Qed.

Lemma array_includes_false x l : ~ In x l -> array_includes x l = false.
Proof.
  intros Hno. destruct (array_includes x l) eqn:E; [| reflexivity].
  apply array_includes_In in E. contradiction.
Qed.

(** Only [Administrators] contributes the wildcard. *)
Lemma wildcard_needs_administrators userId names :
  ~ In "Administrators" names ->
  array_includes "*" (flat_map (own_actions userId) names) = false.
Proof.
  intros Hno. apply array_includes_false. intros Hin.
  apply in_flat_map in Hin as [group [Hgroup Haction]].
  destruct (own_actions_cases userId group)
    as [[_ ->] | [[E _] | [[E _] | E]]]; try contradiction;
    rewrite E in Haction; simpl in Haction;
    repeat (destruct Haction as [Heq | Haction]; [discriminate Heq |]); contradiction.
Qed.

Lemma existsb_In {A : Type} (f : A -> bool) l x :
  In x l -> f x = true -> existsb f l = true.
Proof. intros Hin Hf. apply existsb_exists. now exists x. Qed.

Lemma practitioner_permission seg name :
  listed_resource (Some seg) = true ->
  supported_operation name = true ->
  In (required_permission seg name)
     ["Patient.read"; "Patient.write"; "Observation.read"; "Observation.write"]
  /\ Bridge.action_matches (required_permission seg name) (required_permission seg name)
     = true.
Proof.
  intros Hseg Hname.
  apply array_includes_In in Hname. simpl in Hname.
  destruct (listed_resource_cases _ Hseg) as [-> | ->];
    repeat (destruct Hname as [<- | Hname];
            [split; [vm_compute; tauto | reflexivity] |]);
    contradiction.
Qed.

(** A practitioner whose group names spread is authorized. *)
Lemma practitioners_authorized_spread h c event userInfo names url seg name :
  Bridge.adminListGroupsForUser c (Bridge.Username userInfo) = inr names ->
  forallb (spreads (Bridge.Username userInfo)) names = true ->
  In "Practitioners" names ->
  ~ In "Patients" names ->
  Bridge.new_URL h (to_str (Bridge.datastoreEndpoint event)) = Some url ->
  resourcePath_of url = Some seg ->
  listed_resource (Some seg) = true ->
  Bridge.operationName event = Some name ->
  supported_operation name = true ->
  decision h c event userInfo = true.
Proof.
  intros Hnames Hspread Hpract Hnopat Hurl Hseg Hlisted Hop Hsup.
  destruct (array_includes "*"
              (flat_map (own_actions (Bridge.Username userInfo)) names)) eqn:Hwild.
  { now apply (wildcard_authorized h c event userInfo names). }
  rewrite (decision_listed h c event userInfo names url seg name) by assumption.
  destruct (practitioner_permission seg name Hlisted Hsup) as [Hin Hself].
  unfold Bridge.permission_callback, Bridge.allowedActionsPermissionMatch.
  rewrite filter_length_existsb.
  rewrite (existsb_In _ _ (required_permission seg name)); [| | exact Hself].
  - cbn [negb]. rewrite scope_loop_unscoped; [reflexivity |].
    rewrite forallb_filter. apply forallb_forall. intros action Haction.
    pose proof (allowed_unscoped (Bridge.Username userInfo) names Hnopat) as Hall.
    rewrite forallb_forall in Hall. rewrite (Hall action Haction).
    now destruct (Bridge.action_matches _ action).
  - now apply (own_actions_allowed _ names "Practitioners").
Qed.

(** X5: a user in [Practitioners] who is not in [Patients] is authorized for
    each of the eight supported operations on [Patient] and on [Observation],
    whenever the endpoint parses and its last path segment is one of the two
    resource types, unless one of the user's group names reaches
    [Object.prototype]: then the request is denied. *)
Theorem practitioners_authorized h c event userInfo names url seg name :
  Bridge.adminListGroupsForUser c (Bridge.Username userInfo) = inr names ->
  In "Practitioners" names ->
  ~ In "Patients" names ->
  Bridge.new_URL h (to_str (Bridge.datastoreEndpoint event)) = Some url ->
  resourcePath_of url = Some seg ->
  listed_resource (Some seg) = true ->
  Bridge.operationName event = Some name ->
  supported_operation name = true ->
  decision h c event userInfo = forallb (spreads (Bridge.Username userInfo)) names.
Proof.
  intros Hnames Hpract Hnopat Hurl Hseg Hlisted Hop Hsup.
  destruct (forallb (spreads (Bridge.Username userInfo)) names) eqn:Hspread.
  - now apply (practitioners_authorized_spread h c event userInfo names url seg name).
  - now apply (colliding_group_denied h c event userInfo names).
Qed.

Lemma practitioners_authorized_witness :
  decision Sample.host Sample.cognito Sample.create_patient
    (Bridge.UserObject (Some "dr-lee")) = true.
Proof.
  rewrite (practitioners_authorized Sample.host Sample.cognito Sample.create_patient
             (Bridge.UserObject (Some "dr-lee")) ["Practitioners"]
             {| Bridge.pathname := "/datastore/ds1/r4/Patient";
                Bridge.search := EmptyString |}
             "Patient" "CreateResource");
    try (vm_compute; reflexivity).
  - now left.
  - intros [H | []]. discriminate H.
Defined.

(** Without [Administrators] and [Practitioners], and with group names that
    spread, the write operations are denied. *)
Lemma patients_denied_writes_spread h c event userInfo names url seg name :
  Bridge.adminListGroupsForUser c (Bridge.Username userInfo) = inr names ->
  forallb (spreads (Bridge.Username userInfo)) names = true ->
  ~ In "Administrators" names ->
  ~ In "Practitioners" names ->
  Bridge.new_URL h (to_str (Bridge.datastoreEndpoint event)) = Some url ->
  resourcePath_of url = Some seg ->
  listed_resource (Some seg) = true ->
  Bridge.operationName event = Some name ->
  is_write_operation name = true ->
  decision h c event userInfo = false.
Proof.
  intros Hnames Hspread Hnoadmin Hnopract Hurl Hseg Hlisted Hop Hwrite.
  assert (Hsup : supported_operation name = true).
  { apply array_includes_In in Hwrite. apply array_includes_In. simpl in *. tauto. }
  rewrite (decision_listed h c event userInfo names url seg name); try assumption;
    [| now apply wildcard_needs_administrators].
  unfold Bridge.permission_callback, Bridge.allowedActionsPermissionMatch.
  rewrite filter_length_existsb.
  replace (existsb _ _) with false; [reflexivity |].
  symmetry. apply not_true_is_false. intros Hex.
  apply existsb_exists in Hex as [action [Hin Hmatch]].
  unfold required_permission in Hmatch. rewrite Hwrite in Hmatch.
  destruct (allowed_patient_entries _ _ _ Hnoadmin Hnopract Hin) as [-> | ->];
    [rewrite patient_entry_matches in Hmatch
    | rewrite observation_entry_matches in Hmatch];
    destruct (listed_resource_cases _ Hlisted) as [-> | ->]; discriminate Hmatch.
Qed.

(** X6: a user whose groups hold neither [Administrators] nor
    [Practitioners] is denied [CreateResource], [DeleteResource],
    [UpdateResource] and [StartFHIRExportJobWithPost] on [Patient] and on
    [Observation], whatever the user name is: the entries of [Patients] are
    scoped reads, and no user name can turn one into a write permission. *)
Theorem patients_denied_writes h c event userInfo names url seg name :
  Bridge.adminListGroupsForUser c (Bridge.Username userInfo) = inr names ->
  ~ In "Administrators" names ->
  ~ In "Practitioners" names ->
  Bridge.new_URL h (to_str (Bridge.datastoreEndpoint event)) = Some url ->
  resourcePath_of url = Some seg ->
  listed_resource (Some seg) = true ->
  Bridge.operationName event = Some name ->
  is_write_operation name = true ->
  decision h c event userInfo = false.
Proof.
  intros Hnames Hnoadmin Hnopract Hurl Hseg Hlisted Hop Hwrite.
  destruct (forallb (spreads (Bridge.Username userInfo)) names) eqn:Hspread.
  - now apply (patients_denied_writes_spread h c event userInfo names url seg name).
  - now apply (colliding_group_denied h c event userInfo names).
Qed.

Lemma patients_denied_writes_witness :
  decision Sample.host Sample.cognito Sample.update_as_patient
    (Bridge.UserObject (Some "P1")) = false.
Proof.
  apply (patients_denied_writes Sample.host Sample.cognito Sample.update_as_patient
           (Bridge.UserObject (Some "P1")) ["Patients"]
           {| Bridge.pathname := "/datastore/ds1/r4/Patient";
              Bridge.search := EmptyString |}
           "Patient" "UpdateResource");
    try (vm_compute; reflexivity);
    intros [H | []]; discriminate H.
Defined.

(** With group names that spread, [SearchAll] and [SearchWithPost] pass
    without a scope test. *)
Lemma searches_without_scope_test_spread h c event userInfo names url seg name :
  Bridge.adminListGroupsForUser c (Bridge.Username userInfo) = inr names ->
  forallb (spreads (Bridge.Username userInfo)) names = true ->
  In "Patients" names \/ In "Practitioners" names ->
  Bridge.new_URL h (to_str (Bridge.datastoreEndpoint event)) = Some url ->
  resourcePath_of url = Some seg ->
  listed_resource (Some seg) = true ->
  Bridge.operationName event = Some name ->
  name = "SearchAll" \/ name = "SearchWithPost" ->
  decision h c event userInfo = true.
Proof.
  intros Hnames Hspread Hgroup Hurl Hseg Hlisted Hop Hname.
  destruct (array_includes "*"
              (flat_map (own_actions (Bridge.Username userInfo)) names)) eqn:Hwild.
  { now apply (wildcard_authorized h c event userInfo names). }
  assert (Hsup : supported_operation name = true)
    by (destruct Hname as [-> | ->]; reflexivity).
  rewrite (decision_listed h c event userInfo names url seg name) by assumption.
  unfold Bridge.permission_callback, Bridge.allowedActionsPermissionMatch.
  rewrite filter_length_existsb.
  assert (Hex : existsb (Bridge.action_matches (required_permission seg name))
                  (flat_map (own_actions (Bridge.Username userInfo)) names) = true).
  { destruct Hgroup as [Hpat | Hpract].
    - destruct (listed_resource_cases _ Hlisted) as [-> | ->].
      + apply (existsb_In _ _ (patient_entry (Bridge.Username userInfo))).
        * apply (own_actions_allowed _ names "Patients"); [exact Hpat | now left].
        * rewrite patient_entry_matches. destruct Hname as [-> | ->]; reflexivity.
      + apply (existsb_In _ _ (observation_entry (Bridge.Username userInfo))).
        * apply (own_actions_allowed _ names "Patients"); [exact Hpat | right; now left].
        * rewrite observation_entry_matches. destruct Hname as [-> | ->]; reflexivity.
    - destruct (practitioner_permission seg name Hlisted Hsup) as [Hin Hself].
      apply (existsb_In _ _ (required_permission seg name)); [| exact Hself].
      now apply (own_actions_allowed _ names "Practitioners"). }
  rewrite Hex. cbn [negb].
  rewrite scope_loop_untested; [reflexivity | |];
    rewrite Hop; destruct Hname as [-> | ->]; reflexivity.
Qed.

(** X7: [SearchAll] and [SearchWithPost] are not scoped.  A user in
    [Patients] (or in [Practitioners]) is authorized for both on [Patient] and
    on [Observation] without any test of the user id against the request: the
    scoped entry matches by its base and the loop tests nothing for these
    operations.  The one exception is a user with a group name that reaches
    [Object.prototype], who is denied. *)
Theorem searches_without_scope_test h c event userInfo names url seg name :
  Bridge.adminListGroupsForUser c (Bridge.Username userInfo) = inr names ->
  In "Patients" names \/ In "Practitioners" names ->
  Bridge.new_URL h (to_str (Bridge.datastoreEndpoint event)) = Some url ->
  resourcePath_of url = Some seg ->
  listed_resource (Some seg) = true ->
  Bridge.operationName event = Some name ->
  name = "SearchAll" \/ name = "SearchWithPost" ->
  decision h c event userInfo = forallb (spreads (Bridge.Username userInfo)) names.
Proof.
  intros Hnames Hgroup Hurl Hseg Hlisted Hop Hname.
  destruct (forallb (spreads (Bridge.Username userInfo)) names) eqn:Hspread.
  - now apply (searches_without_scope_test_spread h c event userInfo names url seg name).
  - now apply (colliding_group_denied h c event userInfo names).
Qed.

Lemma searches_without_scope_test_witness :
  decision Sample.host Sample.cognito Sample.list_as_patient
    (Bridge.UserObject (Some "P1")) = true.
Proof.
  rewrite (searches_without_scope_test Sample.host Sample.cognito Sample.list_as_patient
             (Bridge.UserObject (Some "P1")) ["Patients"]
             {| Bridge.pathname := "/datastore/ds1/r4/Patient";
                Bridge.search := EmptyString |}
             "Patient" "SearchAll");
    try (vm_compute; reflexivity).
  - left. now left.
  - now left.
Defined.

Lemma scoped_match_throws h event allowed permission entry :
  Bridge.operationName event = Some "SearchWithGet" ->
  In entry allowed ->
  Bridge.action_matches permission entry = true ->
  is_scoped entry = true ->
  exists e, Bridge.permission_callback h event allowed permission = inl e.
Proof.
  intros Hop Hin Hmatch Hscoped.
  unfold Bridge.permission_callback, Bridge.allowedActionsPermissionMatch.
  rewrite filter_length_existsb, (existsb_In _ _ entry Hin Hmatch). cbn [negb].
  apply scope_loop_search_with_get; [now rewrite Hop |].
  apply (existsb_In _ _ entry); [| exact Hscoped].
  apply filter_In. now split.
Qed.

(** With group names that spread, a patient is denied [SearchWithGet]. *)
Lemma patients_denied_search_with_get_spread h c event userInfo names url seg :
  Bridge.adminListGroupsForUser c (Bridge.Username userInfo) = inr names ->
  forallb (spreads (Bridge.Username userInfo)) names = true ->
  In "Patients" names ->
  ~ In "Administrators" names ->
  Bridge.new_URL h (to_str (Bridge.datastoreEndpoint event)) = Some url ->
  resourcePath_of url = Some seg ->
  listed_resource (Some seg) = true ->
  Bridge.operationName event = Some "SearchWithGet" ->
  decision h c event userInfo = false.
Proof.
  intros Hnames Hspread Hpat Hnoadmin Hurl Hseg Hlisted Hop.
  rewrite (decision_listed h c event userInfo names url seg "SearchWithGet");
    try assumption; try reflexivity; [| now apply wildcard_needs_administrators].
  destruct (listed_resource_cases _ Hlisted) as [-> | ->].
  - destruct (scoped_match_throws h event
                (flat_map (own_actions (Bridge.Username userInfo)) names)
                (required_permission "Patient" "SearchWithGet")
                (patient_entry (Bridge.Username userInfo)) Hop) as [e ->];
      [ apply (own_actions_allowed _ names "Patients"); [exact Hpat | now left]
      | now rewrite patient_entry_matches
      | apply patient_entry_scoped
      | reflexivity ].
  - destruct (scoped_match_throws h event
                (flat_map (own_actions (Bridge.Username userInfo)) names)
                (required_permission "Observation" "SearchWithGet")
                (observation_entry (Bridge.Username userInfo)) Hop) as [e ->];
      [ apply (own_actions_allowed _ names "Patients"); [exact Hpat | right; now left]
      | now rewrite observation_entry_matches
      | apply observation_entry_scoped
      | reflexivity ].
Qed.

(** X8: under [SearchWithGet] a user in [Patients] who is not an
    administrator is denied on [Patient] and on [Observation], whatever the
    query of the request holds: the scoped entry matches the required read
    permission and its test throws. *)
Theorem patients_denied_search_with_get h c event userInfo names url seg :
  Bridge.adminListGroupsForUser c (Bridge.Username userInfo) = inr names ->
  In "Patients" names ->
  ~ In "Administrators" names ->
  Bridge.new_URL h (to_str (Bridge.datastoreEndpoint event)) = Some url ->
  resourcePath_of url = Some seg ->
  listed_resource (Some seg) = true ->
  Bridge.operationName event = Some "SearchWithGet" ->
  decision h c event userInfo = false.
Proof.
  intros Hnames Hpat Hnoadmin Hurl Hseg Hlisted Hop.
  destruct (forallb (spreads (Bridge.Username userInfo)) names) eqn:Hspread.
  - now apply (patients_denied_search_with_get_spread h c event userInfo names url seg).
  - now apply (colliding_group_denied h c event userInfo names).
Qed.

Lemma patients_denied_search_with_get_witness :
  decision Sample.host Sample.cognito Sample.search_own
    (Bridge.UserObject (Some "P1")) = false.
Proof.
  apply (patients_denied_search_with_get Sample.host Sample.cognito Sample.search_own
           (Bridge.UserObject (Some "P1")) ["Patients"]
           {| Bridge.pathname := "/datastore/ds1/r4/Patient";
              Bridge.search := "?patient=P1" |}
           "Patient");
    try (vm_compute; reflexivity).
  - now left.
  - intros [H | []]. discriminate H.
Defined.

Lemma scope_holds_read h event url action :
  Bridge.operationName event = Some "ReadResource" ->
  scope_holds h event url action
  = Bridge.endpointPathMatch h url (at_index (split "?" action) 1).
Proof. intros Hop. unfold scope_holds. now rewrite Hop. Qed.

Lemma forallb_decided {A : Type} (f : A -> bool) l (x : A) (value : bool) :
  In x l -> f x = value ->
  (forall y, In y l -> f y = value \/ f y = true) ->
  forallb f l = value.
Proof.
  intros Hin Hx Hall. destruct value.
  - apply forallb_forall. intros y Hy. destruct (Hall y Hy); assumption.
  - apply not_true_is_false. intros Htrue.
    rewrite forallb_forall in Htrue. rewrite (Htrue x Hin) in Hx. discriminate.
Qed.

Lemma query_of_patient_entry uid :
  includes "?" uid = false ->
  at_index (split "?" (patient_entry (Some uid))) 1 = Some ("patient=" ++ uid).
Proof.
  intros Hnone. rewrite patient_entry_pieces. cbn [to_str].
  rewrite split_without; [reflexivity |].
  cbn [append]. rewrite !includes_char. exact Hnone.
Qed.

Lemma query_of_observation_entry uid :
  includes "?" uid = false ->
  at_index (split "?" (observation_entry (Some uid))) 1 = Some ("subject=" ++ uid).
Proof.
  intros Hnone. rewrite observation_entry_pieces. cbn [to_str].
  rewrite split_without; [reflexivity |].
  cbn [append]. rewrite !includes_char. exact Hnone.
Qed.

Lemma truthy_nonempty s : s <> EmptyString -> truthy (Some s) = true.
Proof. destruct s; [contradiction | reflexivity]. Qed.

(** X9: the scope test of [ReadResource] is a substring test on the whole
    path.  For a user in [Patients] only, whose id holds no [?] and is read
    back by [URLSearchParams] as written, a read on [Patient] or on
    [Observation] is authorized exactly when the id occurs somewhere in the
    endpoint path: inside a longer segment or in the datastore part as well
    as in a segment of its own. *)
Theorem read_scope_is_substring h c event userInfo names url seg uid :
  Bridge.adminListGroupsForUser c (Bridge.Username userInfo) = inr names ->
  forallb (spreads (Bridge.Username userInfo)) names = true ->
  In "Patients" names ->
  ~ In "Administrators" names ->
  ~ In "Practitioners" names ->
  Bridge.Username userInfo = Some uid ->
  uid <> EmptyString ->
  includes "?" uid = false ->
  Bridge.URLSearchParams_get h ("patient=" ++ uid) "patient" = Some uid ->
  Bridge.URLSearchParams_get h ("subject=" ++ uid) "patient" = None ->
  Bridge.URLSearchParams_get h ("subject=" ++ uid) "subject" = Some uid ->
  Bridge.new_URL h (to_str (Bridge.datastoreEndpoint event)) = Some url ->
  resourcePath_of url = Some seg ->
  listed_resource (Some seg) = true ->
  Bridge.operationName event = Some "ReadResource" ->
  decision h c event userInfo = includes uid (Bridge.pathname url).
Proof.
  intros Hnames Hspread Hpat Hnoadmin Hnopract Huid Hne Hclean Hget1 Hget2 Hget3
    Hurl Hseg Hlisted Hop.
  rewrite (decision_listed h c event userInfo names url seg "ReadResource");
    try assumption; try reflexivity; [| now apply wildcard_needs_administrators].
  rewrite (permission_callback_value h event url _ _ Hurl) by now rewrite Hop.
  rewrite Huid in *. unfold code_satisfied.
  set (allowed := flat_map (own_actions (Some uid)) names).
  assert (Hentries : forall a, In a allowed ->
                     a = patient_entry (Some uid) \/ a = observation_entry (Some uid))
    by (intros a; now apply allowed_patient_entries).
  assert (Hholds1 : scope_holds h event url (patient_entry (Some uid))
                    = includes uid (Bridge.pathname url)).
  { rewrite (scope_holds_read _ _ _ _ Hop), (query_of_patient_entry _ Hclean).
    unfold Bridge.endpointPathMatch, Bridge.params_get. rewrite Hget1.
    unfold or_else. now rewrite (truthy_nonempty _ Hne). }
  assert (Hholds2 : scope_holds h event url (observation_entry (Some uid))
                    = includes uid (Bridge.pathname url)).
  { rewrite (scope_holds_read _ _ _ _ Hop), (query_of_observation_entry _ Hclean).
    unfold Bridge.endpointPathMatch, Bridge.params_get. now rewrite Hget2, Hget3. }
  destruct (listed_resource_cases _ Hlisted) as [-> | ->].
  - rewrite (existsb_In _ _ (patient_entry (Some uid))).
    + cbn [andb].
      apply (forallb_decided _ _ (patient_entry (Some uid))).
      * apply (own_actions_allowed _ names "Patients"); [exact Hpat | now left].
      * now rewrite patient_entry_matches, patient_entry_scoped, Hholds1.
      * intros y Hy. destruct (Hentries y Hy) as [-> | ->].
        -- left. now rewrite patient_entry_matches, patient_entry_scoped, Hholds1.
        -- right. now rewrite observation_entry_matches.
    + apply (own_actions_allowed _ names "Patients"); [exact Hpat | now left].
    + now rewrite patient_entry_matches.
  - rewrite (existsb_In _ _ (observation_entry (Some uid))).
    + cbn [andb].
      apply (forallb_decided _ _ (observation_entry (Some uid))).
      * apply (own_actions_allowed _ names "Patients"); [exact Hpat | right; now left].
      * now rewrite observation_entry_matches, observation_entry_scoped, Hholds2.
      * intros y Hy. destruct (Hentries y Hy) as [-> | ->].
        -- right. now rewrite patient_entry_matches.
        -- left.
           now rewrite observation_entry_matches, observation_entry_scoped, Hholds2.
    + apply (own_actions_allowed _ names "Patients"); [exact Hpat | right; now left].
    + now rewrite observation_entry_matches.
Qed.

Lemma read_scope_is_substring_witness :
  decision Sample.host Sample.cognito Sample.read_inside_segment
    (Bridge.UserObject (Some "P1"))
  = includes "P1" "/datastore/XP1X/r4/Patient"
  /\ includes "P1" "/datastore/XP1X/r4/Patient" = true.
Proof.
  split; [| reflexivity].
  apply (read_scope_is_substring Sample.host Sample.cognito Sample.read_inside_segment
           (Bridge.UserObject (Some "P1")) ["Patients"]
           {| Bridge.pathname := "/datastore/XP1X/r4/Patient";
              Bridge.search := EmptyString |}
           "Patient" "P1");
    try (vm_compute; reflexivity);
    try (intros [H | []]; discriminate H).
  - now left.
  - discriminate.
Defined.

Lemma own_get_none {A : Type} (obj : list (string * A)) key :
  (forall k v, In (k, v) obj -> k <> key) -> own_get obj key = None.
Proof.
  induction obj as [| [k v] rest IH]; intros Hkeys; simpl; [reflexivity |].
  destruct (String.eqb_spec k key) as [Heq | _].
  - exfalso. apply (Hkeys k v); [now left | exact Heq].
  - apply IH. intros k' v' Hin. apply (Hkeys k' v'). now right.
Qed.

(** On a listed resource an operation name outside the table, and outside
    [Object.prototype], requires nothing. *)
Lemma requiredPermissions_unknown_operation h seg key :
  listed_resource (Some seg) = true ->
  supported_operation key = false ->
  array_includes key Object_prototype_names = false ->
  Bridge.requiredPermissions h (Some seg) (Some key) = inr (Bridge.RequiredArray []).
Proof.
  intros Hseg Hsup Hproto.
  assert (Hnone : forall ops,
             (forall k v, In (k, v) ops -> supported_operation k = true) ->
             object_get ops key = @Undefined (list string)).
  { intros ops Hops. unfold object_get. rewrite own_get_none, Hproto; [reflexivity |].
    intros k v Hin ->. rewrite (Hops _ _ Hin) in Hsup. discriminate. }
  unfold Bridge.requiredPermissions. cbn [to_str].
  destruct (listed_resource_cases _ Hseg) as [-> | ->].
  - change (object_get Bridge.resourceOperationPermissionsMap "Patient")
      with (Own (match own_get Bridge.resourceOperationPermissionsMap "Patient" with
                 | Some v => v
                 | None => []
                 end)).
    cbv beta iota. rewrite Hnone; [reflexivity |].
    intros k v Hin. vm_compute in Hin.
    repeat (destruct Hin as [Heq | Hin]; [injection Heq as <- _; reflexivity |]).
    contradiction.
  - change (object_get Bridge.resourceOperationPermissionsMap "Observation")
      with (Own (match own_get Bridge.resourceOperationPermissionsMap "Observation" with
                 | Some v => v
                 | None => []
                 end)).
    cbv beta iota. rewrite Hnone; [reflexivity |].
    intros k v Hin. vm_compute in Hin.
    repeat (destruct Hin as [Heq | Hin]; [injection Heq as <- _; reflexivity |]).
    contradiction.
Qed.

(** X10: an operation outside the table needs no permission.  On [Patient]
    and on [Observation], a request whose operation name is absent, or is not
    one of the eight supported names (nor a member of [Object.prototype]),
    passes the permission check for every user whose groups resolve and hold
    no name that reaches [Object.prototype], also for a user without any
    group; the handler then answers 400, not 403.  With such a group name the
    check denies and the handler answers 403. *)
Theorem unknown_operation_needs_no_permission h c env event tr names url seg :
  Bridge.adminListGroupsForUser c (Bridge.Username (resolved_user c event))
  = inr names ->
  Bridge.new_URL h (to_str (Bridge.datastoreEndpoint event)) = Some url ->
  resourcePath_of url = Some seg ->
  listed_resource (Some seg) = true ->
  supported_operation (to_str (Bridge.operationName event)) = false ->
  array_includes (to_str (Bridge.operationName event)) Object_prototype_names = false ->
  decision h c event (resolved_user c event)
  = forallb (spreads (Bridge.Username (resolved_user c event))) names
  /\ outcome (Bridge.handler h c env event) tr =
     inr (if forallb (spreads (Bridge.Username (resolved_user c event))) names
          then if truthy (Bridge.operationName event)
               then Bridge.ErrorResponse 400 "unsupported_operation"
                      ("Operation " ++ to_str (Bridge.operationName event)
                       ++ " is not supported")
               else Bridge.ErrorResponse 400 "invalid_request"
                      "No valid operationName provided"
          else Bridge.access_denied).
Proof.
  intros Hnames Hurl Hseg Hlisted Hsup Hproto.
  destruct (forallb (spreads (Bridge.Username (resolved_user c event))) names)
    eqn:Hspread.
  - assert (Hdecision : decision h c event (resolved_user c event) = true).
    { rewrite decision_unfold, Hnames, (allowedActions_spreads _ _ Hspread).
      destruct (array_includes "*" _); [reflexivity |].
      unfold Bridge.URL_of. rewrite Hurl.
      unfold resourcePath_of in Hseg. rewrite Hseg.
      change (Bridge.requiredPermissions h (Some seg) (Bridge.operationName event))
        with (Bridge.requiredPermissions h (Some seg)
                (Some (to_str (Bridge.operationName event)))).
      now rewrite requiredPermissions_unknown_operation. }
    split; [exact Hdecision |].
    rewrite handler_response, Hdecision, Hsup.
    destruct (truthy (Bridge.operationName event)); reflexivity.
  - assert (Hdecision : decision h c event (resolved_user c event) = false)
      by now apply (colliding_group_denied h c event _ names).
    split; [exact Hdecision |].
    now rewrite handler_response, Hdecision.
Qed.

Lemma unknown_operation_needs_no_permission_witness :
  outcome (Bridge.handler Sample.host Sample.cognito Sample.env Sample.unknown_operation)
          []
  = inr (Bridge.ErrorResponse 400 "unsupported_operation"
           "Operation PatchResource is not supported").
Proof.
  exact (proj2 (unknown_operation_needs_no_permission Sample.host Sample.cognito
                  Sample.env Sample.unknown_operation [] []
                  {| Bridge.pathname := "/datastore/ds1/r4/Patient";
                     Bridge.search := EmptyString |}
                  "Patient" eq_refl eq_refl eq_refl eq_refl eq_refl eq_refl)).
Defined.

Lemma inherited_resource_lookup seg :
  array_includes seg Object_prototype_names = true ->
  object_get Bridge.resourceOperationPermissionsMap seg
  = @Inherited (list (string * list string)).
Proof.
  intros Hproto. unfold object_get. rewrite Hproto.
  apply array_includes_In in Hproto. unfold Object_prototype_names in Hproto.
  simpl in Hproto.
  repeat (destruct Hproto as [<- | Hproto]; [reflexivity |]).
  contradiction.
Qed.

(** X11: a last path segment that names a member of [Object.prototype]
    passes the permission check.  When reading the operation name off the
    inherited built-in gives a falsy value (as it does for the eight
    supported names), the required permissions are empty and every user whose
    groups resolve and hold no name that reaches [Object.prototype] is
    authorized, also a user without any group; with such a group name the
    user is denied. *)
Theorem inherited_segment_authorized h c event userInfo names url seg :
  Bridge.adminListGroupsForUser c (Bridge.Username userInfo) = inr names ->
  Bridge.new_URL h (to_str (Bridge.datastoreEndpoint event)) = Some url ->
  resourcePath_of url = Some seg ->
  array_includes seg Object_prototype_names = true ->
  Bridge.builtin_member h seg (to_str (Bridge.operationName event)) = Bridge.Falsy ->
  decision h c event userInfo = forallb (spreads (Bridge.Username userInfo)) names.
Proof.
  intros Hnames Hurl Hseg Hproto Hmember.
  destruct (forallb (spreads (Bridge.Username userInfo)) names) eqn:Hspread.
  - rewrite decision_unfold, Hnames, (allowedActions_spreads _ _ Hspread).
    destruct (array_includes "*" _); [reflexivity |].
    unfold Bridge.URL_of. rewrite Hurl.
    unfold resourcePath_of in Hseg. rewrite Hseg.
    unfold Bridge.requiredPermissions. cbn [to_str] in *.
    now rewrite (inherited_resource_lookup _ Hproto), Hmember.
  - now apply (colliding_group_denied h c event userInfo names).
Qed.

Lemma inherited_segment_authorized_witness :
  Bridge.adminListGroupsForUser Sample.cognito (Some "guest") = inr []
  /\ decision Sample.host Sample.cognito Sample.read_toString
       (Bridge.UserObject (Some "guest")) = true.
Proof.
  split; [reflexivity |].
  rewrite (inherited_segment_authorized Sample.host Sample.cognito Sample.read_toString
             (Bridge.UserObject (Some "guest")) []
             {| Bridge.pathname := "/datastore/ds1/r4/toString";
                Bridge.search := EmptyString |}
             "toString");
    vm_compute; reflexivity.
Defined.

(** ** Calls to the user directory *)

Lemma getUserInfo_calls c event :
  filter is_cognito_call (events (Bridge.getUserInfo c event))
  = if truthy (Bridge.bearerToken event)
    then [CognitoGetUser (to_str (Bridge.bearerToken event))]
    else [].
Proof.
  unfold Bridge.getUserInfo, events, try_catch, bind, lift, console_log, console_error,
    emit, ret.
  destruct (truthy (Bridge.bearerToken event)); simpl; [| reflexivity].
  destruct (Bridge.getUser c _); reflexivity.
Qed.

Lemma checkUserPermissions_calls h c event userInfo :
  filter is_cognito_call (events (Bridge.checkUserPermissions h c event userInfo))
  = [CognitoAdminListGroupsForUser (Bridge.Username userInfo)].
Proof.
  unfold Bridge.checkUserPermissions, events, try_catch, bind, lift, console_log,
    console_error, emit, ret. simpl.
  destruct (Bridge.adminListGroupsForUser c (Bridge.Username userInfo)); simpl;
    [reflexivity |].
  destruct (allowedActions (Bridge.Username userInfo) l); simpl; [reflexivity |].
  destruct (array_includes "*" l0); simpl; [reflexivity |].
  destruct (Bridge.URL_of h (Bridge.datastoreEndpoint event)); simpl; [reflexivity |].
  destruct (Bridge.requiredPermissions h _ (Bridge.operationName event)); simpl;
    [reflexivity |].
  destruct (Bridge.required_every r _); reflexivity.
Qed.

Lemma forwardRequestToHealthLake_calls h env event userInfo :
  filter is_cognito_call (events (Bridge.forwardRequestToHealthLake h env event userInfo))
  = [].
Proof.
  unfold Bridge.forwardRequestToHealthLake, events, try_catch, bind, console_log,
    console_error, emit, ret.
  destruct (negb (truthy (Bridge.datastoreEndpoint event))
            || negb (truthy (Bridge.bearerToken event))); simpl; [reflexivity |].
  destruct (negb (truthy (Bridge.HEALTHLAKE_ROLE_ARN env))); reflexivity.
Qed.

Lemma dispatch_calls h env event userInfo name :
  filter is_cognito_call (events (Bridge.dispatch h env event userInfo name)) = [].
Proof.
  unfold Bridge.dispatch, Bridge.handleCreateResource, Bridge.handleDeleteResource,
    Bridge.handleReadResource, Bridge.handleSearchAll, Bridge.handleSearchWithGet,
    Bridge.handleSearchWithPost, Bridge.handleStartFHIRExportJobWithPost,
    Bridge.handleUpdateResource.
  repeat match goal with
         | |- context [if ?b then _ else _] =>
             destruct b; [apply forwardRequestToHealthLake_calls |]
         end.
  reflexivity.
Qed.

(** X12: every invocation of the handler makes exactly one group lookup, for
    the user name it resolved, and before it at most one [getUser] call: one
    with the bearer token when the token is present, none otherwise.  The
    operation handlers and the minting make no call to the directory. *)
Theorem bridge_directory_calls h c env event :
  filter is_cognito_call (events (Bridge.handler h c env event))
  = ((if truthy (Bridge.bearerToken event)
      then [CognitoGetUser (to_str (Bridge.bearerToken event))]
      else [])
     ++ [CognitoAdminListGroupsForUser (Bridge.Username (resolved_user c event))])%list.
Proof.
  unfold Bridge.handler.
  rewrite events_bind by bridge_writer. cbn [outcome console_log emit snd].
  rewrite events_try_catch by bridge_writer.
  rewrite events_bind by bridge_writer.
  rewrite getUserInfo_outcome.
  rewrite events_bind by bridge_writer.
  rewrite checkUserPermissions_outcome.
  rewrite !filter_app, getUserInfo_calls, checkUserPermissions_calls.
  cbn [events emit fst filter is_cognito_call app].
  replace (filter is_cognito_call
             (events (if negb (decision h c event (resolved_user c event))
                      then ret Bridge.access_denied
                      else _))) with (@nil Event).
  - replace (filter is_cognito_call
               match outcome (bind (Bridge.getUserInfo c event) _) [] with
               | inl e => _
               | inr _ => []
               end) with (@nil Event).
    + now rewrite !app_nil_r.
    + destruct (outcome _ []); reflexivity.
  - destruct (negb (decision h c event (resolved_user c event))); [reflexivity |].
    destruct (truthy (Bridge.operationName event)).
    + rewrite events_bind by bridge_writer.
      cbn [outcome console_log emit snd events fst].
      rewrite filter_app, dispatch_calls. reflexivity.
    + reflexivity.
Qed.

(** ** Allowed actions, in both Lambda functions *)

Lemma allowedActions_from_collision userId names acc :
  forallb (spreads userId) names = false ->
  fold_left (allowedActions_step userId) names (inr acc)
  = inl (TypeError "(policies[group] || []) is not iterable").
Proof.
  revert acc. induction names as [| g rest IH]; intros acc Hall; simpl in *.
  - discriminate.
  - unfold spreads, object_get in Hall. unfold object_get.
    destruct (own_get (policies userId) g) as [actions |].
    + now apply IH.
    + destruct (array_includes g Object_prototype_names).
      * apply allowedActions_step_error.
      * now apply IH.
Qed.

(** X13: the allowed actions of a list of groups.  When no group name is a
    member of [Object.prototype], they are the entries of the groups in the
    order of the groups, a group listed twice contributing twice and a group
    without a policy contributing nothing; one colliding name anywhere in the
    list makes the whole computation throw a [TypeError]. *)
Theorem allowedActions_value userId names :
  allowedActions userId names =
  if forallb (spreads userId) names
  then inr (flat_map (own_actions userId) names)
  else inl (TypeError "(policies[group] || []) is not iterable").
Proof.
  destruct (forallb (spreads userId) names) eqn:Hall.
  - now apply allowedActions_spreads.
  - unfold allowedActions. now apply allowedActions_from_collision.
Qed.

(** * Further properties of the gateway authorizer *)

(** X14: the shape of every response.  The authorizer always returns a
    policy document of version 2012-10-17 with exactly one statement, for the
    action [execute-api:Invoke] on the [methodArn] of the request and on
    nothing wider.  A Deny carries the principal [unauthorized] and no
    context; an Allow carries a context. *)
Theorem authorizer_response_shape j event tr :
  exists response effect,
    outcome (Authorizer.handler j event) tr = inr response
    /\ Authorizer.policyDocument response
       = {| Authorizer.Version := "2012-10-17";
            Authorizer.Statement :=
              [ {| Authorizer.Action := "execute-api:Invoke";
                   Authorizer.Effect := effect;
                   Authorizer.Resource := Authorizer.methodArn event |} ] |}
    /\ match effect with
       | Authorizer.Deny =>
           Authorizer.principalId response = Some "unauthorized"
           /\ Authorizer.context response = None
       | Authorizer.Allow => Authorizer.context response <> None
       end.
Proof.
  rewrite authorizer_handler_outcome, handler_try_outcome.
  assert (Hdeny : exists response effect,
             @inr JSError _ (Authorizer.deny_response event) = inr response
             /\ Authorizer.policyDocument response
                = {| Authorizer.Version := "2012-10-17";
                     Authorizer.Statement :=
                       [ {| Authorizer.Action := "execute-api:Invoke";
                            Authorizer.Effect := effect;
                            Authorizer.Resource := Authorizer.methodArn event |} ] |}
             /\ match effect with
                | Authorizer.Deny =>
                    Authorizer.principalId response = Some "unauthorized"
                    /\ Authorizer.context response = None
                | Authorizer.Allow => Authorizer.context response <> None
                end).
  { exists (Authorizer.deny_response event), Authorizer.Deny. repeat split. }
  destruct (truthy (Authorizer.authorizationToken event)); [| exact Hdeny].
  destruct (Authorizer.decode j _) as [e | decoded]; [exact Hdeny |].
  destruct (decoded_head decoded) as [head |]; [| exact Hdeny].
  destruct (Authorizer.client_getSigningKey j _) as [[err |] [key |]];
    try exact Hdeny.
  destruct (Authorizer.verify j _ key) as [e | claims]; [exact Hdeny |].
  destruct (allowedActions _ _) as [e | allowed]; [exact Hdeny |].
  eexists. exists Authorizer.Allow. repeat split. discriminate.
Qed.

(** X15: only a verified token is allowed.  The response is an Allow exactly
    when the token is present, decodes with a header and a payload, its key is
    resolved, [jwt.verify] accepts it, and the group names of its payload all
    spread. *)
Theorem authorizer_allows_iff_verified j event tr :
  (exists response,
     outcome (Authorizer.handler j event) tr = inr response
     /\ Authorizer.effect_of response = Some Authorizer.Allow)
  <-> (exists claims,
         verified j event claims
         /\ forallb (spreads (Authorizer.sub claims)) (groups_of_claims claims) = true).
Proof.
  split.
  - intros [response [Hout Heffect]].
    rewrite authorizer_handler_outcome, handler_try_outcome in Hout.
    assert (Hdeny : forall P : Prop,
               @inr JSError _ (Authorizer.deny_response event) = inr response -> P).
    { intros P H. injection H as <-. discriminate Heffect. }
    destruct (truthy (Authorizer.authorizationToken event)) eqn:Htok;
      [| exact (Hdeny _ Hout)].
    destruct (Authorizer.decode j _) as [e | decoded] eqn:Hdec; [exact (Hdeny _ Hout) |].
    destruct (decoded_head decoded) as [head |] eqn:Hhead; [| exact (Hdeny _ Hout)].
    destruct (Authorizer.client_getSigningKey j _) as [[err |] [key |]] eqn:Hkey;
      try exact (Hdeny _ Hout).
    destruct (Authorizer.verify j _ key) as [e | claims] eqn:Hver;
      [exact (Hdeny _ Hout) |].
    exists claims. split.
    + split; [exact Htok |]. exists decoded, head, key.
      repeat split; try assumption. unfold resolved_key. now rewrite Hkey.
    + destruct (forallb (spreads (Authorizer.sub claims)) (groups_of_claims claims))
        eqn:Hspread; [reflexivity |].
      destruct (allowedActions_collision _ _ Hspread) as [e He].
      rewrite He in Hout. exact (Hdeny _ Hout).
  - intros [claims [Hver Hspread]].
    destruct (verified_token_allowed j event claims tr Hver Hspread)
      as [response [Hout Hstatement]].
    exists response. split; [exact Hout |].
    unfold Authorizer.effect_of. now rewrite Hstatement.
Qed.

(** X16: the identity an Allow forwards.  For a verified token whose group
    names spread, the principal and the context user name are the [email]
    claim, or else [preferred_username], or else [sub] (the first that is
    present and non-empty); the context user id is [sub]; [groups] is the
    groups claim joined by commas (empty when the claim is absent) and
    [scopes] the allowed actions of these groups joined by commas. *)
Theorem authorizer_identity_context j event claims tr :
  verified j event claims ->
  forallb (spreads (Authorizer.sub claims)) (groups_of_claims claims) = true ->
  outcome (Authorizer.handler j event) tr =
  inr {| Authorizer.principalId :=
           or_else (or_else (Authorizer.email claims)
                            (Authorizer.preferred_username claims))
                   (Authorizer.sub claims);
         Authorizer.policyDocument :=
           {| Authorizer.Version := "2012-10-17";
              Authorizer.Statement :=
                [ {| Authorizer.Action := "execute-api:Invoke";
                     Authorizer.Effect := Authorizer.Allow;
                     Authorizer.Resource := Authorizer.methodArn event |} ] |};
         Authorizer.context :=
           Some {| Authorizer.userId := Authorizer.sub claims;
                   Authorizer.userName :=
                     or_else (or_else (Authorizer.email claims)
                                      (Authorizer.preferred_username claims))
                             (Authorizer.sub claims);
                   Authorizer.groups := join "," (groups_of_claims claims);
                   Authorizer.scopes :=
                     join "," (flat_map (own_actions (Authorizer.sub claims))
                                        (groups_of_claims claims)) |} |}.
Proof.
  intros [Htok [decoded [head [key [Hdec [Hhead [Hkey Hver]]]]]]] Hspread.
  rewrite authorizer_handler_outcome, handler_try_outcome, Htok, Hdec, Hhead.
  unfold resolved_key in Hkey.
  destruct (Authorizer.client_getSigningKey j (Authorizer.kid head)) as [[err |] [k |]];
    try discriminate.
  injection Hkey as ->.
  now rewrite Hver, (allowedActions_spreads _ _ Hspread).
Qed.

Lemma authorizer_identity_context_witness :
  outcome (Authorizer.handler Sample.jwt Sample.patient_call) [] =
  inr {| Authorizer.principalId := Some "P1";
         Authorizer.policyDocument :=
           {| Authorizer.Version := "2012-10-17";
              Authorizer.Statement :=
                [ {| Authorizer.Action := "execute-api:Invoke";
                     Authorizer.Effect := Authorizer.Allow;
                     Authorizer.Resource := Some Sample.arn |} ] |};
         Authorizer.context :=
           Some {| Authorizer.userId := Some "P1";
                   Authorizer.userName := Some "P1";
                   Authorizer.groups := "Patients";
                   Authorizer.scopes :=
                     "Patient.read?patient=P1,Observation.read?subject=P1" |} |}.
Proof.
  apply (authorizer_identity_context Sample.jwt Sample.patient_call
           (Sample.claims_of "P1" (Some ["Patients"])) []).
  - split; [reflexivity |].
    exists (Some {| Authorizer.header := Some {| Authorizer.kid := Some "key-1" |};
                    Authorizer.payload :=
                      Some (Sample.claims_of "P1" (Some ["Patients"])) |}),
           {| Authorizer.kid := Some "key-1" |}, "public-key-1".
    repeat split; vm_compute; reflexivity.
  - vm_compute. reflexivity.
Defined.

Lemma replace_unfold pat rep s :
  replace pat rep s =
  if prefix pat s then rep ++ drop (String.length pat) s
  else match s with
       | EmptyString => EmptyString
       | String a rest => String a (replace pat rep rest)
       end.
Proof. destruct s; reflexivity. Qed.

Lemma prefix_append p s : prefix p (p ++ s) = true.
Proof.
  induction p as [| a p IH]; simpl.
  - apply prefix_empty.
  - destruct (ascii_dec a a) as [_ | Hne]; [exact IH | contradiction].
Qed.

Lemma drop_append p s : drop (String.length p) (p ++ s) = s.
Proof. induction p as [| a p IH]; simpl; [reflexivity | exact IH]. Qed.

Lemma replace_prefix pat rest : replace pat EmptyString (pat ++ rest) = rest.
Proof. now rewrite replace_unfold, prefix_append, drop_append. Qed.

Lemma replace_absent pat rep s :
  includes pat s = false -> replace pat rep s = s.
Proof.
  induction s as [| a s IH]; simpl; intros Hnone.
  - apply orb_false_iff in Hnone as [Hpre _]. now rewrite Hpre.
  - apply orb_false_iff in Hnone as [Hpre Hrest]. rewrite Hpre. now rewrite IH.
Qed.

(** X17: the [Bearer ] prefix is optional.  A token sent bare and the same
    token sent after [Bearer ] get the same response, provided the token is
    non-empty and does not itself hold the text [Bearer ]. *)
Theorem authorizer_bearer_prefix_optional j token resource tr :
  token <> EmptyString ->
  includes "Bearer " token = false ->
  outcome (Authorizer.handler j
             {| Authorizer.authorizationToken := Some ("Bearer " ++ token);
                Authorizer.methodArn := resource |}) tr
  = outcome (Authorizer.handler j
               {| Authorizer.authorizationToken := Some token;
                  Authorizer.methodArn := resource |}) tr.
Proof.
  intros Hne Hnone.
  rewrite !authorizer_handler_outcome, !handler_try_outcome.
  unfold token_of. cbn [Authorizer.authorizationToken to_str].
  rewrite (replace_prefix "Bearer " token), (replace_absent _ _ _ Hnone).
  rewrite (truthy_nonempty _ Hne).
  reflexivity.
Qed.

Lemma authorizer_bearer_prefix_optional_witness :
  outcome (Authorizer.handler Sample.jwt (Sample.call "Bearer jwt-patient" Sample.arn)) []
  = outcome (Authorizer.handler Sample.jwt (Sample.call "jwt-patient" Sample.arn)) [].
Proof.
  apply (authorizer_bearer_prefix_optional Sample.jwt "jwt-patient" (Some Sample.arn) []).
  - discriminate.
  - reflexivity.
Defined.

(** X18: the key endpoint is asked at most once per request, and only for a
    token that is present and decodes with a header and a payload: for the
    key id of that header.  An absent or malformed token costs no key fetch. *)
Theorem authorizer_key_fetches j event :
  filter is_jwks_fetch (events (Authorizer.handler j event))
  = if truthy (Authorizer.authorizationToken event) then
      match Authorizer.decode j (token_of event) with
      | inl _ => []
      | inr decoded =>
          match decoded_head decoded with
          | Some head => [JwksGetSigningKey (Authorizer.kid head)]
          | None => []
          end
      end
    else [].
Proof.
  unfold Authorizer.handler, Authorizer.handler_try, Authorizer.getSigningKey, token_of,
    events, try_catch, bind, lift, throw, console_log, console_error, console_warn,
    emit, ret.
  destruct (truthy (Authorizer.authorizationToken event)); simpl; [| reflexivity].
  destruct (Authorizer.decode j _) as [e | decoded]; simpl; [reflexivity |].
  destruct decoded as [[[head |] [claims |]] |]; simpl; try reflexivity.
  destruct (Authorizer.client_getSigningKey j (Authorizer.kid head)) as [[err |] [key |]];
    simpl; try reflexivity.
  destruct (Authorizer.verify j _ key) as [e | verifiedToken]; simpl; [reflexivity |].
  destruct (allowedActions _ _) as [e | allowed]; simpl; [reflexivity |].
  destruct (Nat.eqb (List.length allowed) 0); reflexivity.
Qed.

(** * Witnesses for two lemmas on the permission check *)

Lemma administrators_authorized_witness :
  decision Sample.host Sample.cognito Sample.bare_as_root
    (Bridge.UserObject (Some "root")) = true.
Proof.
  apply (administrators_authorized Sample.host Sample.cognito Sample.bare_as_root
           (Bridge.UserObject (Some "root")) ["Administrators"]).
  - reflexivity.
  - reflexivity.
  - now left.
Defined.

Lemma unlisted_last_segment_denied_witness :
  decision Sample.host Sample.cognito Sample.read_encounter
    (Bridge.UserObject (Some "dr-lee")) = false.
Proof.
  apply (unlisted_last_segment_denied Sample.host Sample.cognito Sample.read_encounter
           (Bridge.UserObject (Some "dr-lee")) ["Practitioners"]
           ["Patient.read"; "Patient.write"; "Observation.read"; "Observation.write"]
           {| Bridge.pathname := "/datastore/ds1/r4/Encounter";
              Bridge.search := EmptyString |});
    vm_compute; reflexivity.
Defined.

(** X19: the subject of an assertion.  For every supported operation other
    than [SearchAll], the [sub] of a returned assertion is the user name that
    Cognito resolved for the bearer token (when that name is non-empty). *)
Theorem assertion_subject_is_user h c env event tr payload role name :
  outcome (Bridge.handler h c env event) tr = inr (Bridge.Forwarded payload role) ->
  Bridge.operationName event <> Some "SearchAll" ->
  Bridge.getUser c (to_str (Bridge.bearerToken event)) = inr name ->
  name <> EmptyString ->
  Bridge.sub payload = name.
Proof.
  rewrite handler_response.
  destruct (negb (decision h c event (resolved_user c event))); [discriminate |].
  destruct (truthy (Bridge.operationName event)) eqn:Hop; [| discriminate].
  destruct (negb (supported_operation _)); [discriminate |]. cbn [negb].
  destruct (missing_field event) eqn:Hmiss; [discriminate |].
  destruct (negb (truthy (Bridge.HEALTHLAKE_ROLE_ARN env))); [discriminate |].
  intros H Hnot Huser Hne. unfold assertion in H. injection H as <- _. cbn [Bridge.sub].
  unfold forwarded_user.
  destruct (String.eqb_spec (to_str (Bridge.operationName event)) "SearchAll")
    as [Heq | _].
  - exfalso. apply Hnot. destruct (Bridge.operationName event); [| discriminate Hop].
    simpl in Heq. now subst.
  - rewrite resolved_user_unfold.
    unfold missing_field in Hmiss. apply orb_false_iff in Hmiss as [Htok _].
    apply negb_false_iff in Htok. rewrite Htok, Huser. cbn [Bridge.Username].
    unfold or_else. now rewrite (truthy_nonempty _ Hne).
Qed.

Lemma assertion_subject_is_user_witness :
  Bridge.sub Sample.search_by_name_payload = "dr-lee".
Proof.
  apply (assertion_subject_is_user Sample.host Sample.cognito Sample.env
           Sample.search_by_name [] Sample.search_by_name_payload Sample.role_arn
           "dr-lee").
  - vm_compute. reflexivity.
  - discriminate.
  - reflexivity.
  - discriminate.
Defined.

(** * Properties of the deployment *)

(** ** Running a synthesis step by step *)

Lemma sbind_eval {A B : Type} (m : Cdk.Synth A) (k : A -> Cdk.Synth B) tree tree' r :
  m tree = (tree', r) ->
  Cdk.sbind m k tree =
  match r with
  | inl e => (tree', inl e)
  | inr a => k a tree'
  end.
Proof. intros Hm. unfold Cdk.sbind. now rewrite Hm. Qed.

Lemma stry_eval {A : Type} (m : Cdk.Synth A) (handle : JSError -> Cdk.Synth A)
    tree tree' r :
  m tree = (tree', r) ->
  Cdk.stry m handle tree =
  match r with
  | inl e => handle e tree'
  | inr a => (tree', inr a)
  end.
Proof. intros Hm. unfold Cdk.stry. now rewrite Hm. Qed.

Lemma declare_eval lib scope id class props tree r :
  Cdk.construct_fails lib scope id = r ->
  existsb (Cdk.is_declared scope id) tree = false ->
  Cdk.declare lib scope id class props tree =
  match r with
  | Some e => (tree, inl e)
  | None => ((tree ++ [Cdk.Declared scope id class props])%list, inr tt)
  end.
Proof. intros Hr Hfresh. unfold Cdk.declare. now rewrite Hfresh, Hr. Qed.

Lemma call_eval lib receiver method tree r :
  Cdk.call_fails lib receiver method = r ->
  Cdk.call lib receiver method tree =
  match r with
  | Some e => (tree, inl e)
  | None => ((tree ++ [Cdk.Called receiver method])%list, inr tt)
  end.
Proof. intros Hr. unfold Cdk.call. now rewrite Hr. Qed.

(** [run oracle] evaluates a synthesis to its tree and outcome; [oracle]
    settles what the library answers at each declaration and call, and the
    conditions of the program are settled from the hypotheses. *)
Ltac settle_condition :=
  cbn [Cdk.cognitoCertificateArn Cdk.authDomainName Cdk.hostedZoneName
       Cdk.apiDomainName Cdk.hostedZoneId];
  repeat match goal with
         | H : truthy ?x = _ |- context [truthy ?x] => rewrite H
         | H : Cdk.endsWith ?x ?y = _ |- context [Cdk.endsWith ?x ?y] => rewrite H
         | H : Cdk.instanceof_Error ?x = _ |- context [Cdk.instanceof_Error ?x] =>
             rewrite H
         end;
  cbn [negb orb].

Ltac run oracle :=
  lazymatch goal with
  | |- Cdk.sbind _ _ _ = _ =>
      eapply eq_trans;
      [ eapply sbind_eval; run oracle
      | cbv beta iota; run oracle ]
  | |- Cdk.stry _ _ _ = _ =>
      eapply eq_trans;
      [ eapply stry_eval; run oracle
      | cbv beta iota; run oracle ]
  | |- Cdk.declare _ _ _ _ _ _ = _ =>
      eapply eq_trans;
      [ eapply declare_eval; [oracle | reflexivity]
      | cbv beta iota; reflexivity ]
  | |- Cdk.call _ _ _ _ = _ =>
      eapply eq_trans;
      [ eapply call_eval; oracle
      | cbv beta iota; reflexivity ]
  | |- Cdk.sret _ _ = _ => reflexivity
  | |- Cdk.sthrow _ _ = _ => reflexivity
  | |- (if _ then _ else _) _ = _ => progress (settle_condition; cbv iota); run oracle
  | |- Cdk.custom_domain _ _ _ _ = _ => unfold Cdk.custom_domain; run oracle
  | |- Cdk.HealthlakeCdkStack _ _ _ _ _ = _ => unfold Cdk.HealthlakeCdkStack; run oracle
  | |- Cdk.CognitoCertificateStack _ _ _ _ _ _ _ = _ =>
      unfold Cdk.CognitoCertificateStack; run oracle
  | |- Cdk.main _ _ _ = _ => unfold Cdk.main; run oracle
  | |- (_, _) = _ => reflexivity
  end.

Lemma complete_cases env :
  complete env = true ->
  truthy (Cdk.AUTH_DOMAIN_NAME env) = true
  /\ truthy (Cdk.API_DOMAIN_NAME env) = true
  /\ truthy (Cdk.HOSTED_ZONE_NAME env) = true
  /\ truthy (Cdk.HOSTED_ZONE_ID env) = true.
Proof.
  unfold complete. intros H.
  apply andb_true_iff in H as [H H4]. apply andb_true_iff in H as [H H3].
  apply andb_true_iff in H as [H1 H2]. repeat split; assumption.
Qed.

(** The tree of a synthesis that goes through, with a quiet library. *)
Lemma main_succeeds lib env :
  quiet lib ->
  complete env = true ->
  truthy (Cdk.COGNITO_CERTIFICATE_ARN env) = false
  \/ (truthy (Cdk.COGNITO_CERTIFICATE_ARN env) = true /\ auth_is_subdomain env = true) ->
  exists tree,
    Cdk.main lib env [] = (tree, inr tt)
    /\ children "App" tree
       = (if truthy (Cdk.COGNITO_CERTIFICATE_ARN env)
          then ["TestHealthlakeCdkStack"]
          else ["CognitoCertificateStack"; "TestHealthlakeCdkStack"])
    /\ filter (fun id => array_includes id
                           ["ImportedCognitoCertificate"; "UserPoolDomain";
                            "CognitoDomainRecord"; "CognitoDomain"])
              (children "TestHealthlakeCdkStack" tree)
       = (if truthy (Cdk.COGNITO_CERTIFICATE_ARN env)
          then ["ImportedCognitoCertificate"; "UserPoolDomain";
                "CognitoDomainRecord"; "CognitoDomain"]
          else [])
    /\ environment_of "TestHealthlakeCdkStack" "SmartOnFhirIdpLambda" tree
       = Cdk.idp_environment
    /\ environment_of "TestHealthlakeCdkStack" "AuthLambda" tree
       = Cdk.auth_environment
    /\ group_names tree = ["Administrators"; "Practitioners"; "Patients"].
Proof.
  intros [Hc Hk] Hcomplete Hcert.
  destruct (complete_cases env Hcomplete) as [H1 [H2 [H3 H4]]].
  destruct Hcert as [Hcert | [Hcert Hsub]].
  - eexists. split.
    + run ltac:(first [apply Hc | apply Hk]).
    + rewrite Hcert. repeat split; vm_compute; reflexivity.
  - unfold auth_is_subdomain in Hsub. eexists. split.
    + run ltac:(first [apply Hc | apply Hk]).
    + rewrite Hcert. repeat split; vm_compute; reflexivity.
Qed.

Lemma main_outcome lib env :
  quiet lib ->
  complete env = true ->
  truthy (Cdk.COGNITO_CERTIFICATE_ARN env) = false \/ auth_is_subdomain env = true ->
  synthesis lib env = inr tt
  /\ children "App" (synthesized lib env)
     = (if truthy (Cdk.COGNITO_CERTIFICATE_ARN env)
        then ["TestHealthlakeCdkStack"]
        else ["CognitoCertificateStack"; "TestHealthlakeCdkStack"])
  /\ filter (fun id => array_includes id
                         ["ImportedCognitoCertificate"; "UserPoolDomain";
                          "CognitoDomainRecord"; "CognitoDomain"])
            (children "TestHealthlakeCdkStack" (synthesized lib env))
     = (if truthy (Cdk.COGNITO_CERTIFICATE_ARN env)
        then ["ImportedCognitoCertificate"; "UserPoolDomain";
              "CognitoDomainRecord"; "CognitoDomain"]
        else [])
  /\ environment_of "TestHealthlakeCdkStack" "SmartOnFhirIdpLambda" (synthesized lib env)
     = Cdk.idp_environment
  /\ environment_of "TestHealthlakeCdkStack" "AuthLambda" (synthesized lib env)
     = Cdk.auth_environment
  /\ group_names (synthesized lib env) = ["Administrators"; "Practitioners"; "Patients"].
Proof.
  intros Hquiet Hcomplete Hcert.
  destruct (main_succeeds lib env Hquiet Hcomplete) as [tree [Hmain Htree]].
  - destruct (truthy (Cdk.COGNITO_CERTIFICATE_ARN env)) eqn:Harn.
    + right. split; [reflexivity |]. destruct Hcert as [Hcert | Hcert];
        [discriminate | assumption].
    + now left.
  - unfold synthesis, synthesized. rewrite Hmain. simpl. split; [reflexivity | exact Htree].
Qed.









(** X25: what the [catch] around the custom domain does with a failure of
    the [UserPoolDomain] constructor: an [Error] is thrown again as
    [Failed to create custom domain for Cognito: <message>], and so ends the
    synthesis; a thrown value that is no [Error] is swallowed, and the
    synthesis goes on to its end without the domain. *)
Theorem custom_domain_failure lib env e :
  (forall receiver method, Cdk.call_fails lib receiver method = None) ->
  (forall scope id, id <> "UserPoolDomain" -> Cdk.construct_fails lib scope id = None) ->
  Cdk.construct_fails lib "TestHealthlakeCdkStack" "UserPoolDomain" = Some e ->
  complete env = true ->
  truthy (Cdk.COGNITO_CERTIFICATE_ARN env) = true ->
  auth_is_subdomain env = true ->
  synthesis lib env
  = if Cdk.instanceof_Error e
    then inl (ErrorObject ("Failed to create custom domain for Cognito: "
                           ++ to_str (message_of e)))
    else inr tt.
Proof.
  intros Hk Hc Hfail Hcomplete Harn Hsub.
  destruct (complete_cases env Hcomplete) as [H1 [H2 [H3 H4]]].
  unfold auth_is_subdomain in Hsub. unfold synthesis.
  destruct (Cdk.instanceof_Error e) eqn:Herror.
  - match goal with
    | |- snd ?m = ?r => assert (Hrun : exists tree, m = (tree, r))
    end.
    { eexists.
      run ltac:(first [exact Hfail | apply Hk | apply Hc; discriminate]). }
    destruct Hrun as [tree ->]. reflexivity.
  - match goal with
    | |- snd ?m = ?r => assert (Hrun : exists tree, m = (tree, r))
    end.
    { eexists.
      run ltac:(first [exact Hfail | apply Hk | apply Hc; discriminate]). }
    destruct Hrun as [tree ->]. reflexivity.
Qed.

Lemma custom_domain_failure_witness :
  synthesis (Sample.failing_library (ErrorObject "Custom domain is not a valid subdomain"))
            (Sample.deploy_env (Some Sample.certificate_arn))
  = inl (ErrorObject
           "Failed to create custom domain for Cognito: Custom domain is not a valid subdomain")
  /\ synthesis (Sample.failing_library (Rejection "throttled"))
               (Sample.deploy_env (Some Sample.certificate_arn))
     = inr tt.
Proof.
  split.
  - apply (custom_domain_failure
             (Sample.failing_library (ErrorObject "Custom domain is not a valid subdomain"))
             (Sample.deploy_env (Some Sample.certificate_arn))
             (ErrorObject "Custom domain is not a valid subdomain")).
    + reflexivity.
    + intros scope id Hid. simpl. destruct (String.eqb_spec id "UserPoolDomain");
        [contradiction | reflexivity].
    + reflexivity.
    + reflexivity.
    + reflexivity.
    + reflexivity.
  - apply (custom_domain_failure (Sample.failing_library (Rejection "throttled"))
             (Sample.deploy_env (Some Sample.certificate_arn)) (Rejection "throttled")).
    + reflexivity.
    + intros scope id Hid. simpl. destruct (String.eqb_spec id "UserPoolDomain");
        [contradiction | reflexivity].
    + reflexivity.
    + reflexivity.
    + reflexivity.
    + reflexivity.
Defined.

(** X26: the identity-provider Lambda as the stack deploys it.  Its
    environment carries the role of [HealthLakeSMARTonFHIRRole] and no
    OAUTH2_SERVER_URL: the handler never answers 500 for a missing role
    configuration, and every assertion it returns names that role and carries
    the placeholder issuer [https://main-oauth2-server-link.com/oauth2/token]. *)
Theorem deployed_bridge_role_and_issuer lib env h c event tr :
  quiet lib ->
  complete env = true ->
  truthy (Cdk.COGNITO_CERTIFICATE_ARN env) = false \/ auth_is_subdomain env = true ->
  let deployed :=
    process_env_of
      (environment_of "TestHealthlakeCdkStack" "SmartOnFhirIdpLambda" (synthesized lib env)) in
  outcome (Bridge.handler h c deployed event) tr
  <> inr (Bridge.ErrorResponse 500 "server_error"
            "HealthLake IAM role configuration is missing")
  /\ forall payload role,
       outcome (Bridge.handler h c deployed event) tr = inr (Bridge.Forwarded payload role) ->
       role = Cdk.attr "HealthLakeSMARTonFHIRRole" "roleArn"
       /\ Bridge.iss payload = "https://main-oauth2-server-link.com/oauth2/token".
Proof.
  intros Hquiet Hcomplete Hcert.
  destruct (main_outcome lib env Hquiet Hcomplete Hcert) as [_ [_ [_ [Henv _]]]].
  rewrite Henv. cbv zeta.
  rewrite handler_response.
  change (truthy (Bridge.HEALTHLAKE_ROLE_ARN (process_env_of Cdk.idp_environment)))
    with true.
  cbn [negb].
  destruct (negb (decision h c event (resolved_user c event)));
    [split; [discriminate | intros ? ? [=]] |].
  destruct (negb (truthy (Bridge.operationName event)));
    [split; [discriminate | intros ? ? [=]] |].
  destruct (negb (supported_operation _)); [split; [discriminate | intros ? ? [=]] |].
  destruct (missing_field event); [split; [discriminate | intros ? ? [=]] |].
  unfold assertion. split; [discriminate |].
  intros payload role H. injection H as <- <-. split; reflexivity.
Qed.

Lemma deployed_bridge_role_and_issuer_witness :
  outcome (Bridge.handler Sample.host Sample.cognito
             (process_env_of
                (environment_of "TestHealthlakeCdkStack" "SmartOnFhirIdpLambda"
                   (synthesized Sample.library (Sample.deploy_env None))))
             Sample.search_by_name) []
  <> inr (Bridge.ErrorResponse 500 "server_error"
            "HealthLake IAM role configuration is missing")
  /\ forall payload role,
       outcome (Bridge.handler Sample.host Sample.cognito
                  (process_env_of
                     (environment_of "TestHealthlakeCdkStack" "SmartOnFhirIdpLambda"
                        (synthesized Sample.library (Sample.deploy_env None))))
                  Sample.search_by_name) []
       = inr (Bridge.Forwarded payload role) ->
       role = Cdk.attr "HealthLakeSMARTonFHIRRole" "roleArn"
       /\ Bridge.iss payload = "https://main-oauth2-server-link.com/oauth2/token".
Proof.
  refine (deployed_bridge_role_and_issuer Sample.library (Sample.deploy_env None)
            Sample.host Sample.cognito Sample.search_by_name [] _ _ _).
  - split; reflexivity.
  - reflexivity.
  - left. reflexivity.
Defined.

(** X27: the user pool groups the stack creates are the three roles of the
    Lambdas' policy table.  For a user whose groups are among them the table
    lookup never throws, and membership in at least one of them gives a
    non-empty set of allowed actions. *)
Theorem stack_groups_have_policies lib env userId names :
  quiet lib ->
  complete env = true ->
  truthy (Cdk.COGNITO_CERTIFICATE_ARN env) = false \/ auth_is_subdomain env = true ->
  (forall group, In group names -> In group (group_names (synthesized lib env))) ->
  map fst (policies userId) = group_names (synthesized lib env)
  /\ allowedActions userId names = inr (flat_map (own_actions userId) names)
  /\ (names <> [] -> flat_map (own_actions userId) names <> []).
Proof.
  intros Hquiet Hcomplete Hcert Hnames.
  destruct (main_outcome lib env Hquiet Hcomplete Hcert) as [_ [_ [_ [_ [_ Hgroups]]]]].
  rewrite Hgroups in *. split; [reflexivity |]. split.
  - apply allowedActions_spreads. apply forallb_forall. intros group Hin.
    specialize (Hnames group Hin). simpl in Hnames.
    destruct Hnames as [<- | [<- | [<- | []]]]; reflexivity.
  - destruct names as [| group rest]; [congruence |]. intros _.
    specialize (Hnames group (or_introl eq_refl)). simpl in Hnames.
    cbn [flat_map].
    destruct Hnames as [<- | [<- | [<- | []]]]; discriminate.
Qed.

Lemma stack_groups_have_policies_witness :
  map fst (policies (Some "P1"))
  = group_names (synthesized Sample.library (Sample.deploy_env None))
  /\ allowedActions (Some "P1") ["Patients"]
     = inr (flat_map (own_actions (Some "P1")) ["Patients"])
  /\ (["Patients"] <> [] -> flat_map (own_actions (Some "P1")) ["Patients"] <> []).
Proof.
  apply (stack_groups_have_policies Sample.library (Sample.deploy_env None)
           (Some "P1") ["Patients"]).
  - split; reflexivity.
  - reflexivity.
  - left. reflexivity.
  - intros group [<- | []]. simpl. right. right. left. reflexivity.
Defined.
